(** * gym_solo: observation and reward factories, termination conditions
    and the construction of the base environment.

    The Python sources are embedded as Rocq functions.  A method that
    mutates its receiver or raises is a computation of the monad [Py.M]:
    it takes the state of the objects it may write and returns a result
    (a value or the exception raised) together with the state it leaves. *)

From Stdlib Require Import List String Bool Arith ZArith Lia.
From Stdlib Require Import Decimal DecimalString.
From Stdlib Require Import Floats.PrimFloat.
Import ListNotations.

Set Implicit Arguments.

(* ================================================================== *)
(** ** Python: exceptions and mutable state *)

Module Py.

(** The exceptions the sources raise. *)
Inductive exn : Type :=
| ValueError (msg : string)
| TypeError (msg : string)
| AssertionError (msg : string).

Inductive result (A : Type) : Type :=
| Ok (a : A)
| Raise (e : exn).
Arguments Ok {A} a.
Arguments Raise {A} e.

(** A computation over a mutable state [S].  What was written before
    an exception is raised stays written. *)
Definition M (S A : Type) : Type := S -> result A * S.

Definition ret {S A : Type} (a : A) : M S A := fun s => (Ok a, s).

Definition bind {S A B : Type} (m : M S A) (k : A -> M S B) : M S B :=
  fun s =>
    match m s with
    | (Ok a, s') => k a s'
    | (Raise e, s') => (Raise e, s')
    end.

Definition raise {S A : Type} (e : exn) : M S A := fun s => (Raise e, s).

Definition get {S : Type} : M S S := fun s => (Ok s, s).

Definition modify {S : Type} (f : S -> S) : M S unit := fun s => (Ok tt, f s).

(** [if b: m] with no else branch. *)
Definition when {S : Type} (b : bool) (m : M S unit) : M S unit :=
  if b then m else ret tt.

(** Run a computation on one component of a larger state. *)
Definition on_fst {S T A : Type} (m : M S A) : M (S * T) A :=
  fun st => let '(r, s') := m (fst st) in (r, (s', snd st)).

Definition on_snd {S T A : Type} (m : M T A) : M (S * T) A :=
  fun st => let '(r, t') := m (snd st) in (r, (fst st, t')).

(** ['{}'.format(n)] for a length. *)
Definition str (n : nat) : string := NilEmpty.string_of_uint (Nat.to_uint n).

(** [len(l)] *)
Definition len {A : Type} (l : list A) : nat := List.length l.

(** [not l] for a list: true exactly when it is empty. *)
Definition not_ {A : Type} (l : list A) : bool :=
  match l with [] => true | _ :: _ => false end.

(** The builtin [sum] over an iterable, starting from [zero]: it adds
    the items to the running total from left to right. *)
Definition sum {num : Type} (zero : num) (add : num -> num -> num)
    (items : list num) : num :=
  fold_left add items zero.

End Py.

Declare Scope py_scope.
Delimit Scope py_scope with py.
Notation "x <- m ;; k" := (Py.bind m (fun x => k))
  (at level 61, m at next level, right associativity) : py_scope.
Notation "m ;; k" := (Py.bind m (fun _ => k))
  (at level 61, right associativity) : py_scope.
Open Scope string_scope.
Open Scope list_scope.
Open Scope py_scope.

(* ================================================================== *)
(** ** The backend session handle *)

Module bullet_client.
(** A [BulletClient] is a handle on a physics session; the factories
    only store it and hand it on. *)
Definition BulletClient : Type := nat.
End bullet_client.

(* ================================================================== *)
(** ** gym.spaces.Box, as far as the factory uses it *)

Module spaces.
Section Box.
(** The entries of a bound array.  The factory moves them and never
    computes with them. *)
Variable num : Type.

(** A box holds two arrays of one shape; it is kept as the sequence of
    its per-dimension (low, high) pairs, which cannot disagree in
    length. *)
Record Box : Type := mkBox { bounds : list (num * num) }.

Definition low (b : Box) : list num := map fst (bounds b).
Definition high (b : Box) : list num := map snd (bounds b).

(** [Box(low=..., high=...)]: the constructor asserts that the two
    arrays have the same shape. *)
Definition Box_new {S : Type} (lo hi : list num) : Py.M S Box :=
  if Nat.eqb (Py.len lo) (Py.len hi)
  then Py.ret (mkBox (combine lo hi))
  else Py.raise (Py.AssertionError "box dimension mismatch. ").
End Box.
End spaces.

(* ================================================================== *)
(** ** gym_solo/core/obs.py *)

Module Observation.
Section Observation.
(** [World] is the state of the simulation behind the client at the
    time of a call; the members of an observation read it. *)
Variable World : Type.
Variable num : Type.

(** [solo_types.obs]: a one-dimensional numeric array. *)
Definition solo_types_obs : Type := list num.

(** An instance of a concrete subclass of [Observation]: the attribute
    [_client] of the base class and the three abstract members, each
    given by what it returns in a state of the simulation.  The members
    are taken to return normally and to leave the object as it is. *)
Record t : Type := mk {
  _client : option bullet_client.BulletClient;
  labels : World -> list string;
  observation_space : World -> spaces.Box num;
  compute : World -> solo_types_obs
}.

(** The property [client]: reading it before it is set raises. *)
Definition client (self : t) : Py.M t bullet_client.BulletClient :=
  match _client self with
  | None => Py.raise (Py.ValueError "PyBullet client needs to be set")
  | Some c => Py.ret c
  end.

(** The setter of [client]. *)
Definition set_client (c : bullet_client.BulletClient) : Py.M t unit :=
  Py.modify (fun self =>
    {| _client := Some c;
       labels := labels self;
       observation_space := observation_space self;
       compute := compute self |}).
End Observation.
End Observation.

Module ObservationFactory.
Section ObservationFactory.
Variable World : Type.
Variable num : Type.

Definition Observation : Type := Observation.t World num.
Definition Box : Type := spaces.Box num.

(** The attributes of a factory.  The factory never writes to an
    observation once it is in [_observations], and what the members of
    an observation return is read off the simulation, so the list holds
    each observation as it was when appended. *)
Record t : Type := mk {
  _client : bullet_client.BulletClient;
  _observations : list Observation;
  _obs_space : option Box
}.

(** [ObservationFactory(client)] *)
Definition __init__ (client : bullet_client.BulletClient) : t :=
  {| _client := client; _observations := []; _obs_space := None |}.

(** [self._observations.append(obs)] *)
Definition append (obs : Observation) : Py.M t unit :=
  Py.modify (fun self =>
    {| _client := _client self;
       _observations := _observations self ++ [obs];
       _obs_space := _obs_space self |}).

(** [register_observation(self, obs)].  Both [self] and the object
    [obs] refers to are written, so the state is the pair of them; the
    second component is the caller's observation after the call. *)
Definition register_observation (w : World) : Py.M (t * Observation) unit :=
  self <- Py.on_fst Py.get ;;
  Py.on_snd (Observation.set_client (_client self)) ;;
  obs <- Py.on_snd Py.get ;;
  let lbl_len := Py.len (Observation.labels obs w) in
  let obs_space_len := Py.len (spaces.low (Observation.observation_space obs w)) in
  let obs_len := Py.len (Observation.compute obs w) in
  Py.when (negb (Nat.eqb lbl_len obs_space_len))
    (Py.raise (Py.ValueError
       ("Labels have length " ++ Py.str lbl_len ++
        " != obs space len " ++ Py.str obs_space_len)%string)) ;;
  Py.when (negb (Nat.eqb lbl_len obs_len))
    (Py.raise (Py.ValueError
       ("Labels have length " ++ Py.str lbl_len ++
        " != obs len " ++ Py.str obs_len)%string)) ;;
  Py.on_fst (append obs).

(** The loop of [get_obs]: one [compute()] and one [labels] per
    registered observation, appended to the two accumulators. *)
Definition get_obs_loop (w : World) (observations : list Observation)
    : list (list num) * list (list string) :=
  fold_left
    (fun acc obs =>
       (fst acc ++ [Observation.compute obs w],
        snd acc ++ [Observation.labels obs w]))
    observations ([], []).

(** [get_obs(self)] *)
Definition get_obs (w : World) : Py.M t (list num * list string) :=
  self <- Py.get ;;
  Py.when (Py.not_ (_observations self))
    (Py.raise (Py.ValueError
       "Need to register at least one observation instance")) ;;
  let '(all_obs, all_labels) := get_obs_loop w (_observations self) in
  let observations := List.concat all_obs in
  let labels := List.concat all_labels in
  Py.ret (observations, labels).

(** The loop of [get_observation_space]: [lower.extend(...)] and
    [upper.extend(...)] per registered observation. *)
Definition get_observation_space_loop (w : World)
    (observations : list Observation) : list num * list num :=
  fold_left
    (fun acc obs =>
       (fst acc ++ spaces.low (Observation.observation_space obs w),
        snd acc ++ spaces.high (Observation.observation_space obs w)))
    observations ([], []).

Definition set_obs_space (b : Box) : Py.M t unit :=
  Py.modify (fun self =>
    {| _client := _client self;
       _observations := _observations self;
       _obs_space := Some b |}).

(** [get_observation_space(self, generate=False)].  A [Box] is always
    true, so [self._obs_space and not generate] holds exactly when a
    space is cached and [generate] is false. *)
Definition get_observation_space (generate : bool) (w : World) : Py.M t Box :=
  self <- Py.get ;;
  Py.when (Py.not_ (_observations self))
    (Py.raise (Py.ValueError "Can't generate an empty observation space")) ;;
  match _obs_space self, generate with
  | Some cached, false => Py.ret cached
  | _, _ =>
      let '(lower, upper) := get_observation_space_loop w (_observations self) in
      b <- spaces.Box_new lower upper ;;
      set_obs_space b ;;
      Py.ret b
  end.
End ObservationFactory.
End ObservationFactory.

(* ================================================================== *)
(** ** gym_solo/core/rewards.py *)

Module Reward.
Section Reward.
Variable World : Type.
Variable num : Type.

(** An instance of a concrete subclass of [Reward]: its one abstract
    member, given by the scalar it returns in a state of the
    simulation. *)
Record t : Type := mk { compute : World -> num }.
End Reward.
End Reward.

Module RewardFactory.
Section RewardFactory.
Variable World : Type.

(** The numbers rewards and weights are made of, with the [0] the
    builtin [sum] starts from, [+] and [*]. *)
Variable num : Type.
Variable zero : num.
Variable add : num -> num -> num.
Variable mul : num -> num -> num.

Record _WeightedReward : Type := mk_WeightedReward {
  reward : Reward.t World num;
  weight : num
}.

Record t : Type := mk { _rewards : list _WeightedReward }.

(** [RewardFactory()] *)
Definition __init__ : t := {| _rewards := [] |}.

(** [register_reward(self, weight, reward)] *)
Definition register_reward (weight : num) (reward : Reward.t World num)
    : Py.M t unit :=
  Py.modify (fun self =>
    {| _rewards :=
         _rewards self ++ [{| reward := reward; weight := weight |}] |}).

(** [get_reward(self)] *)
Definition get_reward (w : World) : Py.M t num :=
  self <- Py.get ;;
  Py.when (Py.not_ (_rewards self))
    (Py.raise (Py.ValueError
       "Need to register at least one reward instance")) ;;
  Py.ret (Py.sum zero add
            (map (fun wr => mul (weight wr) (Reward.compute (reward wr) w))
                 (_rewards self))).

(** The sum the documentation speaks of, written by recursion on the
    registered pairs: [w1 * r1 + (w2 * r2 + ...)]. *)
Fixpoint weighted_sum (w : World) (rewards : list _WeightedReward) : num :=
  match rewards with
  | [] => zero
  | wr :: rest =>
      add (mul (weight wr) (Reward.compute (reward wr) w)) (weighted_sum w rest)
  end.
End RewardFactory.
End RewardFactory.

(* ================================================================== *)
(** ** gym_solo/core/termination.py *)

Module termination.

(** Modelled from the spec: the interface of a termination condition,
    whose module termination.py is absent from the sources (its tests
    are present).  [reset()] zeroes the counter; [is_terminated()]
    advances it and answers. *)
Class TerminationCondition (T : Type) : Type := {
  reset : Py.M T unit;
  is_terminated : Py.M T bool
}.

(** Modelled from the spec: the state of a TimeBasedTermination of
    the absent termination.py, a counter [step_delta] and the
    configured threshold [max_step_delta]. *)
Record TimeBasedTermination : Type := mkTimeBased {
  max_step_delta : Z;
  step_delta : Z
}.

(** Modelled from the spec: the constructor of TimeBasedTermination in
    the absent termination.py; the tests read [step_delta == 0] and the
    given [max_step_delta] off a new instance. *)
Definition TimeBasedTermination__init__ (max_step_delta : Z)
    : TimeBasedTermination :=
  {| max_step_delta := max_step_delta; step_delta := 0 |}.

(** Modelled from the spec: [reset()] of TimeBasedTermination in the
    absent termination.py zeroes the internal step counter. *)
Definition TimeBased_reset : Py.M TimeBasedTermination unit :=
  Py.modify (fun self =>
    {| max_step_delta := max_step_delta self; step_delta := 0 |}).

(** Modelled from the spec: [is_terminated()] of TimeBasedTermination
    in the absent termination.py increments the internal step counter
    by one, then returns whether the counter now exceeds the
    configured maximum. *)
Definition TimeBased_is_terminated : Py.M TimeBasedTermination bool :=
  Py.modify (fun self =>
    {| max_step_delta := max_step_delta self;
       step_delta := step_delta self + 1 |}) ;;
  self <- Py.get ;;
  Py.ret (Z.ltb (max_step_delta self) (step_delta self)).

#[export] Instance TimeBased_condition : TerminationCondition TimeBasedTermination :=
  {| reset := TimeBased_reset; is_terminated := TimeBased_is_terminated |}.

(** Modelled from the spec: a PerpetualTermination of the absent
    termination.py has no threshold and keeps no state the spec
    describes. *)
Inductive PerpetualTermination : Type := mkPerpetual.

(** Modelled from the spec: [reset()] of PerpetualTermination in the
    absent termination.py has nothing to zero. *)
Definition Perpetual_reset : Py.M PerpetualTermination unit := Py.ret tt.

(** Modelled from the spec: [is_terminated()] of PerpetualTermination
    in the absent termination.py always returns false. *)
Definition Perpetual_is_terminated : Py.M PerpetualTermination bool :=
  Py.ret false.

#[export] Instance Perpetual_condition : TerminationCondition PerpetualTermination :=
  {| reset := Perpetual_reset; is_terminated := Perpetual_is_terminated |}.

(** The loop of the tests: [n] calls of [is_terminated()] in a row,
    recording what each call returned. *)
Fixpoint calls {T : Type} `{TerminationCondition T} (n : nat)
    : Py.M T (list bool) :=
  match n with
  | O => Py.ret []
  | S n' =>
      b <- is_terminated ;;
      bs <- calls n' ;;
      Py.ret (b :: bs)
  end.

(** The loop of [test_is_terminated]: after each call the test also
    reads [step_delta]. *)
Fixpoint calls_reading_step_delta (n : nat)
    : Py.M TimeBasedTermination (list (bool * Z)) :=
  match n with
  | O => Py.ret []
  | S n' =>
      b <- TimeBased_is_terminated ;;
      self <- Py.get ;;
      rest <- calls_reading_step_delta n' ;;
      Py.ret ((b, step_delta self) :: rest)
  end.

End termination.

(* ================================================================== *)
(** ** gym_solo/envs: the base environment and the class of its tests *)

Module envs.

(** Modelled from the spec: the two mutually exclusive modes in which
    the constructor of Solo8BaseEnv (absent from the sources) opens the
    backend session; the tests name them [p.GUI] and [p.DIRECT]. *)
Inductive connection_mode : Type := GUI | DIRECT.

(** Modelled from the spec: what an environment does to its session and
    its collaborators, in the order it does it.  Solo8BaseEnv is absent
    from the sources; the spec names opening the session, applying the
    configuration, the two hooks and [step]. *)
Inductive event : Type :=
| Connect (mode : connection_mode)
| Configure
| LoadBodies
| Reset (from_init : bool)
| Step.

Section Solo8BaseEnv.
(** [configs.Solo8BaseConfig]: an immutable bundle the environment
    stores and never inspects here. *)
Variable Config : Type.

(** The attributes a subclass adds to the environment. *)
Variable S : Type.

(** Modelled from the spec: a class of environments is given by the two
    operations a concrete variant must supply; the absent base class
    Solo8BaseEnv declares both and supplies neither. *)
Record class : Type := mkClass {
  load_bodies : option (Py.M S unit);
  reset : option (bool -> Py.M S unit)
}.

(** Modelled from the spec: the abstract base type Solo8BaseEnv (absent
    from the sources), with both operations left abstract. *)
Definition Solo8BaseEnv : class := {| load_bodies := None; reset := None |}.

(** Modelled from the spec: an instance of the absent Solo8BaseEnv: the
    stored configuration, the mode of the session it holds, the
    attributes of the subclass, and the record of what it did so far. *)
Record t : Type := mk {
  config : option Config;
  client : option connection_mode;
  attrs : S;
  history : list event
}.

(** Modelled from the spec: one entry more in the record of what the
    environment did (bookkeeping of this model of the absent class). *)
Definition did (e : event) : Py.M t unit :=
  Py.modify (fun self =>
    {| config := config self; client := client self;
       attrs := attrs self; history := history self ++ [e] |}).

(** Modelled from the spec: a hook of the subclass runs on the
    attributes of the instance (the absent base class calls it on
    [self]). *)
Definition on_attrs {A : Type} (m : Py.M S A) : Py.M t A :=
  fun self =>
    let '(r, a) := m (attrs self) in
    (r, {| config := config self; client := client self;
           attrs := a; history := history self |}).

(** Modelled from the spec: [Solo8BaseEnv.__init__(config, use_gui)] of
    the absent base class opens a session in one of the two modes,
    applies the configuration, calls [load_bodies()] once, then calls
    [reset(from_init=True)]. *)
Definition __init__ (load_bodies : Py.M S unit) (reset : bool -> Py.M S unit)
    (cfg : Config) (use_gui : bool) : Py.M t unit :=
  Py.modify (fun self =>
    {| config := Some cfg;
       client := Some (if use_gui then GUI else DIRECT);
       attrs := attrs self; history := history self |}) ;;
  did (Connect (if use_gui then GUI else DIRECT)) ;;
  did Configure ;;
  did LoadBodies ;;
  on_attrs load_bodies ;;
  did (Reset true) ;;
  on_attrs (reset true).

(** Modelled from the spec: calling a class of environments.  A class
    that leaves [load_bodies] or [reset] abstract (the absent
    Solo8BaseEnv itself) cannot be instantiated: the call fails before
    any initialisation runs, as [test_abstract_init] expects with a
    TypeError.  Otherwise the new object, whose subclass attributes are
    [attrs0], is initialised. *)
Definition new (c : class) (attrs0 : S) (cfg : Config) (use_gui : bool)
    : Py.result t :=
  match load_bodies c, reset c with
  | Some lb, Some rs =>
      let fresh := {| config := None; client := None;
                      attrs := attrs0; history := [] |} in
      match __init__ lb rs cfg use_gui fresh with
      | (Py.Ok _, self) => Py.Ok self
      | (Py.Raise e, _) => Py.Raise e
      end
  | _, _ =>
      Py.Raise (Py.TypeError
        "Can't instantiate abstract class Solo8BaseEnv with abstract methods")
  end.

(** Modelled from the spec: [step(action)] of the absent base class, as
    far as the order of events goes: it is one more thing the
    environment did. *)
Definition step : Py.M t unit := did Step.

(** How many times the environment did [e]. *)
Definition times (p : event -> bool) (self : t) : nat :=
  Py.len (filter p (history self)).
End Solo8BaseEnv.

Definition is_LoadBodies (e : event) : bool :=
  match e with LoadBodies => true | _ => false end.
Definition is_Reset (e : event) : bool :=
  match e with Reset _ => true | _ => false end.
Definition is_Reset_from_init (e : event) : bool :=
  match e with Reset true => true | _ => false end.
Definition is_Step (e : event) : bool :=
  match e with Step => true | _ => false end.

(** [SimpleSoloEnv] of test_solo8_base_env.py: its two attributes. *)
Record SimpleSoloEnv_attrs : Type := mkSimple {
  reset_call : option bool;
  load_bodies_call : option bool
}.

(** [SimpleSoloEnv.reset(self, init_call)] *)
Definition SimpleSoloEnv_reset (init_call : bool) : Py.M SimpleSoloEnv_attrs unit :=
  Py.modify (fun self =>
    {| reset_call := Some init_call;
       load_bodies_call := load_bodies_call self |}).

(** [SimpleSoloEnv.load_bodies(self)] *)
Definition SimpleSoloEnv_load_bodies : Py.M SimpleSoloEnv_attrs unit :=
  Py.modify (fun self =>
    {| reset_call := reset_call self; load_bodies_call := Some true |}).

(** The class [SimpleSoloEnv]: it supplies both operations. *)
Definition SimpleSoloEnv : class SimpleSoloEnv_attrs :=
  {| load_bodies := Some SimpleSoloEnv_load_bodies;
     reset := Some SimpleSoloEnv_reset |}.

(** [SimpleSoloEnv(config, use_gui)]: [__init__] sets both attributes to
    [None], then runs the initialisation of the base class. *)
Definition SimpleSoloEnv_new {Config : Type} (cfg : Config) (use_gui : bool)
    : Py.result (t Config SimpleSoloEnv_attrs) :=
  new SimpleSoloEnv {| reset_call := None; load_bodies_call := None |}
      cfg use_gui.

End envs.

(* ================================================================== *)
(** ** The observations obs.py ships: [TorsoIMU] and [MotorEncoder] *)

Module pybullet.
Section pybullet.
Variable num : Type.

(** The entries of the tuple [getJointInfo] returns that obs.py reads:
    the name, as bytes (index 1), and the two limits (indices 8, 9). *)
Record JointInfo : Type := mkJointInfo {
  jointName : string;
  jointLowerLimit : num;
  jointUpperLimit : num
}.

(** What one session answers to the queries obs.py makes, at one moment
    of the simulation.  A body id is an int, a joint index counts from
    zero; [getJointState] stands for the first entry of its tuple, the
    position. *)
Record Session : Type := mkSession {
  getBasePositionAndOrientation :
    Z -> (num * num * num) * (num * num * num * num);
  getEulerFromQuaternion : num * num * num * num -> num * num * num;
  getBaseVelocity : Z -> (num * num * num) * (num * num * num);
  getNumJoints : Z -> nat;
  getJointInfo : Z -> nat -> JointInfo;
  getJointState : Z -> nat -> num
}.

(** The state of the simulation: what each client reaches. *)
Definition World : Type := bullet_client.BulletClient -> Session.
End pybullet.
End pybullet.

Module np.
Section np.
Variable num : Type.

(** [np.array(t)] for a tuple of three numbers. *)
Definition array3 (t : num * num * num) : list num :=
  let '(x, y, z) := t in [x; y; z].

(** [np.degrees(a)]: the conversion [degrees] of one number, applied to
    every entry. *)
Definition degrees (degrees1 : num -> num) (a : list num) : list num :=
  map degrees1 a.
End np.
End np.

Module range.
(** [range(n)] *)
Definition range (n : nat) : list nat := seq 0 n.

(** [[f(x) for x in xs]] where [f] may raise: the elements are computed
    in order, and the first exception ends the comprehension. *)
Fixpoint comprehension {S A B : Type} (f : A -> Py.M S B) (xs : list A)
    : Py.M S (list B) :=
  match xs with
  | [] => Py.ret []
  | x :: rest =>
      y <- f x ;;
      ys <- comprehension f rest ;;
      Py.ret (y :: ys)
  end.
End range.

Module ObservationBase.
(** The property [client] of [Observation], as its subclasses inherit
    it: [self._client] is read and refused when nothing was set. *)
Definition client {S : Type} (_client : S -> option bullet_client.BulletClient)
    : Py.M S bullet_client.BulletClient :=
  self <- Py.get ;;
  match _client self with
  | None => Py.raise (Py.ValueError "PyBullet client needs to be set")
  | Some c => Py.ret c
  end.
End ObservationBase.

Module TorsoIMU.
Section TorsoIMU.
Variable num : Type.

(** The numbers the class writes down: [np.pi], [180.], [np.inf] and
    their negations, as entries of an array. *)
Variable pi neg_pi c180 neg_c180 inf neg_inf : num.
(** [np.degrees] on one entry. *)
Variable degrees1 : num -> num.

Record t : Type := mk {
  _client : option bullet_client.BulletClient;
  robot : Z;
  _degrees : bool
}.

(** [TorsoIMU(body_id, degrees=False)] *)
Definition __init__ (body_id : Z) (degrees : bool) : t :=
  {| _client := None; robot := body_id; _degrees := degrees |}.

(** The setter of [client]. *)
Definition set_client (c : bullet_client.BulletClient) : Py.M t unit :=
  Py.modify (fun self =>
    {| _client := Some c; robot := robot self; _degrees := _degrees self |}).

(** The class attribute [labels]. *)
Definition labels : list string :=
  ["θx"; "θy"; "θz"; "vx"; "vy"; "vz"; "wx"; "wy"; "wz"].

(** The property [observation_space]. *)
Definition observation_space : Py.M t (spaces.Box num) :=
  self <- Py.get ;;
  let angle_min := if _degrees self then neg_c180 else neg_pi in
  let angle_max := if _degrees self then c180 else pi in
  let lower := [angle_min; angle_min; angle_min;
                neg_inf; neg_inf; neg_inf;
                neg_inf; neg_inf; neg_inf] in
  let upper := [angle_max; angle_max; angle_max;
                inf; inf; inf;
                inf; inf; inf] in
  spaces.Box_new lower upper.

(** [compute(self)] *)
Definition compute (w : pybullet.World num) : Py.M t (list num) :=
  self <- Py.get ;;
  c <- ObservationBase.client _client ;;
  let '(_, orien_quat) :=
    pybullet.getBasePositionAndOrientation (w c) (robot self) in
  c <- ObservationBase.client _client ;;
  let orien := np.array3 (pybullet.getEulerFromQuaternion (w c) orien_quat) in
  c <- ObservationBase.client _client ;;
  let '(v_lin, v_ang) := pybullet.getBaseVelocity (w c) (robot self) in
  let v_lin := np.array3 v_lin in
  let v_ang := np.array3 v_ang in
  let orien := if _degrees self then np.degrees degrees1 orien else orien in
  let v_ang := if _degrees self then np.degrees degrees1 v_ang else v_ang in
  Py.ret (List.concat [orien; v_lin; v_ang]).
End TorsoIMU.
End TorsoIMU.

Module MotorEncoder.
Section MotorEncoder.
Variable num : Type.
(** [np.degrees] on one entry. *)
Variable degrees1 : num -> num.
(** [b.decode('UTF-8')]: the text, or the UnicodeDecodeError (a
    ValueError) the bytes cause. *)
Variable decode : string -> Py.result string.

Record t : Type := mk {
  _client : option bullet_client.BulletClient;
  robot : Z;
  _degrees : bool
}.

(** [MotorEncoder(body_id, degrees=False)] *)
Definition __init__ (body_id : Z) (degrees : bool) : t :=
  {| _client := None; robot := body_id; _degrees := degrees |}.

(** The setter of [client]. *)
Definition set_client (c : bullet_client.BulletClient) : Py.M t unit :=
  Py.modify (fun self =>
    {| _client := Some c; robot := robot self; _degrees := _degrees self |}).

(** The property [_num_joints]. *)
Definition _num_joints (w : pybullet.World num) : Py.M t nat :=
  self <- Py.get ;;
  c <- ObservationBase.client _client ;;
  Py.ret (pybullet.getNumJoints (w c) (robot self)).

(** The loop of [observation_space]: one [getJointInfo] per joint, its
    two limits appended to [lower] and [upper]. *)
Fixpoint observation_space_loop (w : pybullet.World num) (joints : list nat)
    (lower upper : list num) : Py.M t (list num * list num) :=
  match joints with
  | [] => Py.ret (lower, upper)
  | joint :: rest =>
      self <- Py.get ;;
      c <- ObservationBase.client _client ;;
      let joint_info := pybullet.getJointInfo (w c) (robot self) joint in
      observation_space_loop w rest
        (lower ++ [pybullet.jointLowerLimit joint_info])
        (upper ++ [pybullet.jointUpperLimit joint_info])
  end.

(** The property [observation_space]. *)
Definition observation_space (w : pybullet.World num)
    : Py.M t (spaces.Box num) :=
  n <- _num_joints w ;;
  lu <- observation_space_loop w (range.range n) [] [] ;;
  self <- Py.get ;;
  let lower := if _degrees self then np.degrees degrees1 (fst lu) else fst lu in
  let upper := if _degrees self then np.degrees degrees1 (snd lu) else snd lu in
  spaces.Box_new lower upper.

(** The property [labels]. *)
Definition labels (w : pybullet.World num) : Py.M t (list string) :=
  n <- _num_joints w ;;
  range.comprehension
    (fun joint =>
       self <- Py.get ;;
       c <- ObservationBase.client _client ;;
       match decode (pybullet.jointName
                       (pybullet.getJointInfo (w c) (robot self) joint)) with
       | Py.Ok name => Py.ret name
       | Py.Raise e => Py.raise e
       end)
    (range.range n).

(** [compute(self)] *)
Definition compute (w : pybullet.World num) : Py.M t (list num) :=
  n <- _num_joints w ;;
  joint_values <-
    range.comprehension
      (fun i =>
         self <- Py.get ;;
         c <- ObservationBase.client _client ;;
         Py.ret (pybullet.getJointState (w c) (robot self) i))
      (range.range n) ;;
  self <- Py.get ;;
  let joint_values :=
    if _degrees self then np.degrees degrees1 joint_values else joint_values in
  Py.ret joint_values.
End MotorEncoder.
End MotorEncoder.

(* ================================================================== *)
(** ** Vocabulary for the statements about the shipped observations *)

Module EncoderSpec.
(** The limits and positions of the joints of the robot, as a
    [MotorEncoder] reports them: converted when it works in degrees. *)
Definition reported (num : Type) (degrees1 : num -> num)
    (self : MotorEncoder.t) (values : list num) : list num :=
  if MotorEncoder._degrees self then map degrees1 values else values.
End EncoderSpec.

(* ================================================================== *)
(** ** Vocabulary for the statements about the observation factory *)

Module ObsSpec.
Section ObsSpec.
Variable World : Type.
Variable num : Type.

Let Obs : Type := Observation.t World num.
Let Factory : Type := ObservationFactory.t World num.

(** The three counts [register_observation] compares. *)
Definition label_count (w : World) (obs : Obs) : nat :=
  Py.len (Observation.labels obs w).
Definition bound_count (w : World) (obs : Obs) : nat :=
  Py.len (spaces.low (Observation.observation_space obs w)).
Definition computed_length (w : World) (obs : Obs) : nat :=
  Py.len (Observation.compute obs w).

(** The invariant of an observation in a state of the simulation: its
    three counts agree. *)
Definition consistent (w : World) (obs : Obs) : Prop :=
  label_count w obs = bound_count w obs /\
  label_count w obs = computed_length w obs.

(** The observation [obs] with its client set to [c]. *)
Definition bound_to (c : bullet_client.BulletClient) (obs : Obs) : Obs :=
  snd (Observation.set_client c obs).

(** The factory [self] with [obs] at the end of its registrations. *)
Definition with_registered (self : Factory) (obs : Obs) : Factory :=
  snd (ObservationFactory.append obs self).

(** The factory [self] with [b] as its cached space. *)
Definition with_cache (self : Factory) (b : spaces.Box num) : Factory :=
  snd (ObservationFactory.set_obs_space b self).

(** The space of a sequence of observations: their bounds one after the
    other, in the order of the sequence. *)
Definition combined_space (w : World) (observations : list Obs)
    : spaces.Box num :=
  spaces.mkBox
    (flat_map (fun o => spaces.bounds (Observation.observation_space o w))
              observations).

(** An observation of fixed shape: its three counts are the same in
    every state of the simulation. *)
Definition fixed_shape (obs : Obs) : Prop :=
  forall w w' : World,
    label_count w obs = label_count w' obs /\
    bound_count w obs = bound_count w' obs /\
    computed_length w obs = computed_length w' obs.

(** The factories a program can arrive at: a new one, then calls of
    [register_observation] on observations of fixed shape that return
    normally, and calls of [get_observation_space].  The other calls
    ([get_obs], a registration that raises) leave the factory as it
    was. *)
Inductive reachable : Factory -> Prop :=
| reachable_new (c : bullet_client.BulletClient) :
    reachable (ObservationFactory.__init__ World num c)
| reachable_register (w : World) (self self' : Factory) (obs obs' : Obs) :
    reachable self ->
    fixed_shape obs ->
    ObservationFactory.register_observation w (self, obs)
    = (Py.Ok tt, (self', obs')) ->
    reachable self'
| reachable_space (generate : bool) (w : World) (self : Factory) :
    reachable self ->
    reachable (snd (ObservationFactory.get_observation_space generate w self)).

(** The sentence of the specification on registration and the cache,
    read literally: after a registration that returns normally no space
    is cached any more, and [get_observation_space()] answers with the
    space of all registrations. *)
Definition registration_invalidates_cache : Prop :=
  forall (w : World) (self self' : Factory) (obs obs' : Obs),
    ObservationFactory.register_observation w (self, obs)
    = (Py.Ok tt, (self', obs')) ->
    ObservationFactory._obs_space self' = None /\
    forall w' : World,
      fst (ObservationFactory.get_observation_space false w' self')
      = Py.Ok (combined_space w' (ObservationFactory._observations self')).

(** The sum of the lengths of a sequence of observations. *)
Definition total_length (w : World) (observations : list Obs) : nat :=
  list_sum (map (computed_length w) observations).

(** In the state [w] the observation has one label per computed
    value. *)
Definition labels_match (w : World) (obs : Obs) : Prop :=
  label_count w obs = computed_length w obs.

(** The postcondition of [get_obs] read literally, on the smallest
    factories with a registration: whenever an observation was
    registered on a new factory, the two results of [get_obs] have the
    same length, in whatever state of the simulation it is called. *)
Definition registered_lengths_agree : Prop :=
  forall (w0 w : World) (c : bullet_client.BulletClient)
         (obs obs' : Obs) (self' s : Factory)
         (vector : list num) (labels : list string),
    ObservationFactory.register_observation w0
      (ObservationFactory.__init__ World num c, obs)
    = (Py.Ok tt, (self', obs')) ->
    ObservationFactory.get_obs w self' = (Py.Ok (vector, labels), s) ->
    Py.len vector = Py.len labels.
End ObsSpec.
End ObsSpec.

(* ================================================================== *)
(** ** Vocabulary for the statements about the reward factory *)

Module RewardSpec.
Section RewardSpec.
Variable World : Type.
Variable num : Type.
Variable zero : num.
Variable add : num -> num -> num.
Variable mul : num -> num -> num.

(** The entry [register_reward(weight, reward)] appends. *)
Definition entry (p : num * Reward.t World num)
    : RewardFactory._WeightedReward World num :=
  {| RewardFactory.reward := snd p; RewardFactory.weight := fst p |}.

(** [register_reward(weight, reward)] for each pair of a sequence, in
    its order. *)
Fixpoint register_all (pairs : list (num * Reward.t World num))
    : Py.M (RewardFactory.t World num) unit :=
  match pairs with
  | [] => Py.ret tt
  | p :: rest =>
      RewardFactory.register_reward (fst p) (snd p) ;;
      register_all rest
  end.

(** The factory with exactly the pairs of [pairs] registered. *)
Definition registered (pairs : list (num * Reward.t World num))
    : RewardFactory.t World num :=
  snd (register_all pairs (RewardFactory.__init__ World num)).

(** [weight * reward.compute()] for one registered pair. *)
Definition term (w : World) (p : num * Reward.t World num) : num :=
  mul (fst p) (Reward.compute (snd p) w).
End RewardSpec.
End RewardSpec.

(* ================================================================== *)
(** ** Sample objects *)

Module Samples.

(** A simulation whose state the samples do not read. *)
Definition World : Type := unit.

Definition Obs : Type := Observation.t World float.

(** A new observation object: no client set yet. *)
Definition observation (labels : list string) (space : list (float * float))
    (value : list float) : Obs :=
  {| Observation._client := None;
     Observation.labels := fun _ => labels;
     Observation.observation_space := fun _ => spaces.mkBox space;
     Observation.compute := fun _ => value |}.

Definition pose : Obs :=
  observation ["x"; "y"] [(-1, 1); (-1, 1)]%float [0.5; -0.5]%float.

Definition height : Obs :=
  observation ["z"] [(0, infinity)]%float [0.25]%float.

(** Two labels and two values, one bound. *)
Definition short_space : Obs :=
  observation ["a"; "b"] [(0, 1)]%float [0.5; 0.5]%float.

(** Two labels and two bounds, three values. *)
Definition long_value : Obs :=
  observation ["a"; "b"] [(0, 1); (0, 1)]%float [0.5; 0.5; 0.5]%float.

(** Two bounds and two values, one label. *)
Definition short_labels : Obs :=
  observation ["a"] [(0, 1); (0, 1)]%float [0.5; 0.5]%float.

(** Three different counts. *)
Definition all_differ : Obs :=
  observation ["a"] [(0, 1); (0, 1)]%float [0.5; 0.5; 0.5]%float.

Definition factory : ObservationFactory.t World float :=
  ObservationFactory.__init__ World float 7.

(** The factory after [register_observation(pose)]. *)
Definition factory_pose : ObservationFactory.t World float :=
  fst (snd (ObservationFactory.register_observation tt (factory, pose))).

(** The same after a first [get_observation_space()], which caches the
    space of [pose] alone. *)
Definition factory_pose_cached : ObservationFactory.t World float :=
  snd (ObservationFactory.get_observation_space false tt factory_pose).

(** The same after [register_observation(height)]. *)
Definition factory_pose_cached_height : ObservationFactory.t World float :=
  fst (snd (ObservationFactory.register_observation tt
              (factory_pose_cached, height))).

(** A reward that computes to [value] in every state. *)
Definition constant_reward (num : Type) (value : num) : Reward.t World num :=
  {| Reward.compute := fun _ => value |}.

End Samples.

(* ================================================================== *)
(** ** A sample robot *)

Module RobotSamples.

(** A session with one robot, body 0, that has two joints and rests
    level, one unit above the ground. *)
Definition session : pybullet.Session float :=
  {| pybullet.getBasePositionAndOrientation :=
       fun _ => ((0, 0, 1), (0, 0, 0, 1))%float;
     pybullet.getEulerFromQuaternion := fun _ => (0, 0, 0)%float;
     pybullet.getBaseVelocity := fun _ => ((0.5, 0, 0), (0, 0, 0.25))%float;
     pybullet.getNumJoints := fun _ => 2;
     pybullet.getJointInfo :=
       fun _ joint =>
         {| pybullet.jointName := if Nat.eqb joint 0 then "hip" else "knee";
            pybullet.jointLowerLimit := (-1)%float;
            pybullet.jointUpperLimit := 1%float |};
     pybullet.getJointState := fun _ joint => if Nat.eqb joint 0 then 0.5%float else (-0.5)%float |}.

Definition world : pybullet.World float := fun _ => session.

(** Names that are plain ASCII decode to themselves. *)
Definition decode (b : string) : Py.result string := Py.Ok b.

(** [MotorEncoder(0)] after [obs.client = 7]. *)
Definition encoder : MotorEncoder.t :=
  snd (MotorEncoder.set_client 7 (MotorEncoder.__init__ 0 false)).

(** [TorsoIMU(0)] after [obs.client = 7]. *)
Definition imu : TorsoIMU.t :=
  snd (TorsoIMU.set_client 7 (TorsoIMU.__init__ 0 false)).

End RobotSamples.

(* ================================================================== *)
(** ** A sample observation whose shape follows the simulation *)

Module DriftSamples.

(** The state of the simulation: how many bodies it holds. *)
Definition World : Type := nat.

(** One value per body, under the single label and the single bound the
    observation declares. *)
Definition per_body : Observation.t World float :=
  {| Observation._client := None;
     Observation.labels := fun _ => ["height"];
     Observation.observation_space := fun _ => spaces.mkBox [(0, infinity)]%float;
     Observation.compute := fun bodies => repeat 0.5%float bodies |}.

(** A new factory after [register_observation(per_body)], called while
    the simulation holds one body. *)
Definition factory_per_body : ObservationFactory.t World float :=
  fst (snd (ObservationFactory.register_observation 1
              (ObservationFactory.__init__ World float 7, per_body))).

End DriftSamples.

(* ================================================================== *)
(** * Properties *)

Import ObsSpec.

(** ** The observation factory *)

Section ObservationFactory_facts.
Variable World : Type.
Variable num : Type.

Let Obs : Type := Observation.t World num.
Let Factory : Type := ObservationFactory.t World num.

Lemma bound_to_members (c : bullet_client.BulletClient) (obs : Obs) :
  Observation.labels (bound_to c obs) = Observation.labels obs /\
  Observation.observation_space (bound_to c obs)
    = Observation.observation_space obs /\
  Observation.compute (bound_to c obs) = Observation.compute obs /\
  Observation._client (bound_to c obs) = Some c.
Proof. repeat split. Qed.

Lemma bound_to_counts (w : World) (c : bullet_client.BulletClient) (obs : Obs) :
  label_count w (bound_to c obs) = label_count w obs /\
  bound_count w (bound_to c obs) = bound_count w obs /\
  computed_length w (bound_to c obs) = computed_length w obs.
Proof. repeat split. Qed.

Lemma consistent_bound_to (w : World) (c : bullet_client.BulletClient) (obs : Obs) :
  consistent w (bound_to c obs) <-> consistent w obs.
Proof. unfold consistent. now rewrite !(proj1 (bound_to_counts w c obs)). Qed.

(** [register_observation], run: the client is set first, then the two
    comparisons decide between the two errors and the append. *)
Lemma register_observation_run (w : World) (self : Factory) (obs : Obs) :
  ObservationFactory.register_observation w (self, obs) =
  let obs' := bound_to (ObservationFactory._client self) obs in
  if negb (Nat.eqb (label_count w obs) (bound_count w obs)) then
    (Py.Raise (Py.ValueError
       ("Labels have length " ++ Py.str (label_count w obs) ++
        " != obs space len " ++ Py.str (bound_count w obs))%string),
     (self, obs'))
  else if negb (Nat.eqb (label_count w obs) (computed_length w obs)) then
    (Py.Raise (Py.ValueError
       ("Labels have length " ++ Py.str (label_count w obs) ++
        " != obs len " ++ Py.str (computed_length w obs))%string),
     (self, obs'))
  else (Py.Ok tt, (with_registered self obs', obs')).
Proof.
  unfold ObservationFactory.register_observation, Py.bind, Py.on_fst, Py.on_snd.
  cbn [Py.get fst snd].
  change (Observation.set_client (ObservationFactory._client self) obs)
    with (Py.Ok tt, bound_to (ObservationFactory._client self) obs).
  cbn [fst snd].
  change (Py.len (Observation.labels (bound_to (ObservationFactory._client self) obs) w))
    with (label_count w obs).
  change (Py.len (spaces.low (Observation.observation_space
            (bound_to (ObservationFactory._client self) obs) w)))
    with (bound_count w obs).
  change (Py.len (Observation.compute (bound_to (ObservationFactory._client self) obs) w))
    with (computed_length w obs).
  destruct (Nat.eqb (label_count w obs) (bound_count w obs)); cbn; [|reflexivity].
  destruct (Nat.eqb (label_count w obs) (computed_length w obs)); cbn; reflexivity.
Qed.

Lemma register_observation_ok (w : World) (self : Factory) (obs : Obs) :
  consistent w obs ->
  ObservationFactory.register_observation w (self, obs) =
  (Py.Ok tt,
   (with_registered self (bound_to (ObservationFactory._client self) obs),
    bound_to (ObservationFactory._client self) obs)).
Proof.
  intros [H1 H2]. rewrite register_observation_run. cbv zeta.
  apply Nat.eqb_eq in H1, H2. now rewrite H1, H2.
Qed.

Lemma register_observation_raises (w : World) (self : Factory) (obs : Obs) :
  ~ consistent w obs ->
  exists msg,
    ObservationFactory.register_observation w (self, obs) =
    (Py.Raise (Py.ValueError msg),
     (self, bound_to (ObservationFactory._client self) obs)).
Proof.
  intros H. rewrite register_observation_run. cbv zeta.
  destruct (Nat.eqb_spec (label_count w obs) (bound_count w obs)) as [H1|H1];
    cbn [negb]; [|eexists; reflexivity].
  destruct (Nat.eqb_spec (label_count w obs) (computed_length w obs)) as [H2|H2];
    cbn [negb]; [|eexists; reflexivity].
  exfalso. apply H. split; assumption.
Qed.

(** A call that returns normally was given a consistent observation. *)
Lemma register_observation_inv (w : World) (self self' : Factory) (obs obs' : Obs) :
  ObservationFactory.register_observation w (self, obs) = (Py.Ok tt, (self', obs')) ->
  consistent w obs /\
  obs' = bound_to (ObservationFactory._client self) obs /\
  self' = with_registered self obs'.
Proof.
  rewrite register_observation_run. cbv zeta.
  destruct (Nat.eqb_spec (label_count w obs) (bound_count w obs)) as [H1|H1];
    cbn [negb]; [|discriminate].
  destruct (Nat.eqb_spec (label_count w obs) (computed_length w obs)) as [H2|H2];
    cbn [negb]; [|discriminate].
  intros E. injection E as E1 E2. subst obs'. subst self'.
  repeat split; assumption.
Qed.

(** *** The two loops *)

Lemma get_obs_loop_from (w : World) (l : list Obs)
    (all_obs : list (list num)) (all_labels : list (list string)) :
  fold_left
    (fun acc obs =>
       (fst acc ++ [Observation.compute obs w],
        snd acc ++ [Observation.labels obs w]))
    l (all_obs, all_labels)
  = (all_obs ++ map (fun o => Observation.compute o w) l,
     all_labels ++ map (fun o => Observation.labels o w) l).
Proof.
  revert all_obs all_labels.
  induction l as [|o l IH]; intros all_obs all_labels; cbn [fold_left map fst snd].
  - now rewrite !app_nil_r.
  - rewrite IH, <- !app_assoc. reflexivity.
Qed.

Lemma get_obs_loop_maps (w : World) (l : list Obs) :
  ObservationFactory.get_obs_loop w l
  = (map (fun o => Observation.compute o w) l,
     map (fun o => Observation.labels o w) l).
Proof. unfold ObservationFactory.get_obs_loop. now rewrite get_obs_loop_from. Qed.

Lemma get_observation_space_loop_from (w : World) (l : list Obs)
    (lower upper : list num) :
  fold_left
    (fun acc obs =>
       (fst acc ++ spaces.low (Observation.observation_space obs w),
        snd acc ++ spaces.high (Observation.observation_space obs w)))
    l (lower, upper)
  = (lower ++ map fst (spaces.bounds (combined_space w l)),
     upper ++ map snd (spaces.bounds (combined_space w l))).
Proof.
  revert lower upper.
  induction l as [|o l IH]; intros lower upper; cbn [fold_left fst snd].
  - cbn. now rewrite !app_nil_r.
  - rewrite IH. cbn [combined_space spaces.bounds flat_map].
    unfold spaces.low, spaces.high.
    now rewrite !map_app, <- !app_assoc.
Qed.

Lemma get_observation_space_loop_bounds (w : World) (l : list Obs) :
  ObservationFactory.get_observation_space_loop w l
  = (spaces.low (combined_space w l), spaces.high (combined_space w l)).
Proof.
  unfold ObservationFactory.get_observation_space_loop.
  now rewrite get_observation_space_loop_from.
Qed.

Lemma combine_fst_snd (A B : Type) (l : list (A * B)) :
  combine (map fst l) (map snd l) = l.
Proof.
  induction l as [|[a b] l IH]; cbn; [reflexivity|now rewrite IH].
Qed.

(** The assertion of the [Box] constructor never fires on the two
    arrays the loop builds. *)
Lemma Box_new_combined (S : Type) (w : World) (l : list Obs) (s : S) :
  spaces.Box_new (spaces.low (combined_space w l))
                 (spaces.high (combined_space w l)) s
  = (Py.Ok (combined_space w l), s).
Proof.
  unfold spaces.Box_new, spaces.low, spaces.high, Py.len.
  rewrite !length_map, Nat.eqb_refl, combine_fst_snd.
  reflexivity.
Qed.

Lemma not_nonempty (A : Type) (l : list A) : l <> [] -> Py.not_ l = false.
Proof. destruct l; [congruence|reflexivity]. Qed.

(** *** [get_obs] and [get_observation_space], run *)

Lemma get_obs_run (w : World) (self : Factory) :
  ObservationFactory._observations self <> [] ->
  ObservationFactory.get_obs w self =
  (Py.Ok (List.concat (map (fun o => Observation.compute o w)
                           (ObservationFactory._observations self)),
          List.concat (map (fun o => Observation.labels o w)
                           (ObservationFactory._observations self))),
   self).
Proof.
  intros H. unfold ObservationFactory.get_obs, Py.bind. cbn [Py.get].
  rewrite (not_nonempty H). cbn [Py.when Py.ret].
  now rewrite get_obs_loop_maps.
Qed.

Lemma get_observation_space_cached (w : World) (self : Factory)
    (cached : spaces.Box num) :
  ObservationFactory._observations self <> [] ->
  ObservationFactory._obs_space self = Some cached ->
  ObservationFactory.get_observation_space false w self = (Py.Ok cached, self).
Proof.
  intros H Hc. unfold ObservationFactory.get_observation_space, Py.bind.
  cbn [Py.get]. rewrite (not_nonempty H). cbn [Py.when Py.ret].
  now rewrite Hc.
Qed.

Lemma get_observation_space_rebuilt (generate : bool) (w : World) (self : Factory) :
  ObservationFactory._observations self <> [] ->
  generate = true \/ ObservationFactory._obs_space self = None ->
  ObservationFactory.get_observation_space generate w self =
  let b := combined_space w (ObservationFactory._observations self) in
  (Py.Ok b, with_cache self b).
Proof.
  intros H Hg. unfold ObservationFactory.get_observation_space, Py.bind.
  cbn [Py.get]. rewrite (not_nonempty H). cbn [Py.when Py.ret].
  rewrite get_observation_space_loop_bounds.
  assert (E : forall s : Factory,
    (let '(r, s') :=
       spaces.Box_new
         (spaces.low (combined_space w (ObservationFactory._observations self)))
         (spaces.high (combined_space w (ObservationFactory._observations self))) s in
     match r with
     | Py.Ok a =>
         (let '(r0, s'0) := ObservationFactory.set_obs_space a s' in
          match r0 with
          | Py.Ok _ => (Py.Ok a, s'0)
          | Py.Raise e => (Py.Raise e, s'0)
          end)
     | Py.Raise e => (Py.Raise e, s')
     end)
    = (Py.Ok (combined_space w (ObservationFactory._observations self)),
       with_cache s (combined_space w (ObservationFactory._observations self)))).
  { intros s. rewrite Box_new_combined. reflexivity. }
  destruct Hg as [->|Hn].
  - destruct (ObservationFactory._obs_space self); apply E.
  - rewrite Hn. destruct generate; apply E.
Qed.

(** *** Registration *)

(** C2: [register_observation(obs)] returns normally, with [obs] (its
    client set, its members as they were) appended to the registrations,
    when the label count, the bound count and the computed length of
    [obs] are all equal; when any two of the three differ it raises a
    ValueError and the registrations are as before.  The two cases
    cover every observation. *)
Theorem register_observation_validates (w : World) (self : Factory) (obs : Obs) :
  let obs' := bound_to (ObservationFactory._client self) obs in
  (label_count w obs = bound_count w obs /\
   label_count w obs = computed_length w obs /\
   bound_count w obs = computed_length w obs ->
   ObservationFactory.register_observation w (self, obs)
   = (Py.Ok tt, (with_registered self obs', obs')) /\
   ObservationFactory._observations (with_registered self obs')
   = ObservationFactory._observations self ++ [obs']) /\
  (label_count w obs <> bound_count w obs \/
   label_count w obs <> computed_length w obs \/
   bound_count w obs <> computed_length w obs ->
   exists msg,
     ObservationFactory.register_observation w (self, obs)
     = (Py.Raise (Py.ValueError msg), (self, obs'))) /\
  (Observation.labels obs' = Observation.labels obs /\
   Observation.observation_space obs' = Observation.observation_space obs /\
   Observation.compute obs' = Observation.compute obs).
Proof.
  cbv zeta. split; [|split].
  - intros (H1 & H2 & _). split; [|reflexivity].
    apply register_observation_ok. split; assumption.
  - intros H. apply register_observation_raises.
    intros [H1 H2]. destruct H as [H|[H|H]]; [tauto|tauto|].
    apply H. congruence.
  - repeat split.
Qed.

(** C10: when [register_observation(obs)] raises, the factory is as it
    was before the call, so [get_obs] and [get_observation_space] answer
    as before, while the observation the caller passed now has the
    client of the factory set: the assignment comes first and is not
    undone. *)
Theorem register_observation_failure (w : World) (self self' : Factory)
    (obs obs' : Obs) (e : Py.exn) :
  ObservationFactory.register_observation w (self, obs)
  = (Py.Raise e, (self', obs')) ->
  self' = self /\
  (forall w', ObservationFactory.get_obs w' self'
              = ObservationFactory.get_obs w' self) /\
  (forall generate w',
     ObservationFactory.get_observation_space generate w' self'
     = ObservationFactory.get_observation_space generate w' self) /\
  Observation._client obs' = Some (ObservationFactory._client self) /\
  Observation.client obs' obs' = (Py.Ok (ObservationFactory._client self), obs') /\
  obs' = bound_to (ObservationFactory._client self) obs /\
  ~ consistent w obs.
Proof.
  rewrite register_observation_run. cbv zeta.
  destruct (Nat.eqb_spec (label_count w obs) (bound_count w obs)) as [H1|H1];
    cbn [negb];
    [destruct (Nat.eqb_spec (label_count w obs) (computed_length w obs)) as [H2|H2];
     cbn [negb]; [discriminate|]|];
    intros E; injection E as _ E1 E2; subst self' obs';
    repeat split; try reflexivity; intros [C1 C2]; contradiction.
Qed.

(** *** Reading the observations *)

Lemma length_concat_sum (A : Type) (ll : list (list A)) :
  Py.len (List.concat ll) = list_sum (map (@Py.len A) ll).
Proof.
  unfold Py.len.
  induction ll as [|l ll IH]; cbn; [reflexivity|].
  now rewrite length_app, IH.
Qed.

Lemma total_length_labels (w : World) (l : list Obs) :
  Forall (consistent w) l ->
  list_sum (map (label_count w) l) = total_length w l.
Proof.
  unfold total_length, list_sum.
  induction 1 as [|o l [_ Ho] _ IH]; cbn [map fold_right]; [reflexivity|].
  now rewrite Ho, IH.
Qed.

(** With every registered observation consistent in the current state,
    the two results of [get_obs()] have the same length. *)
Lemma get_obs_of_consistent (w : World) (self : Factory) :
  ObservationFactory._observations self <> [] ->
  Forall (consistent w) (ObservationFactory._observations self) ->
  exists (vector : list num) (labels : list string),
    ObservationFactory.get_obs w self = (Py.Ok (vector, labels), self) /\
    vector = List.concat (map (fun o => Observation.compute o w)
                              (ObservationFactory._observations self)) /\
    labels = List.concat (map (fun o => Observation.labels o w)
                              (ObservationFactory._observations self)) /\
    Py.len vector = Py.len labels /\
    Py.len labels = total_length w (ObservationFactory._observations self).
Proof.
  intros Hne Hall.
  eexists. eexists. split; [apply get_obs_run; exact Hne|].
  split; [reflexivity|]. split; [reflexivity|].
  assert (Hv : Py.len (List.concat (map (fun o => Observation.compute o w)
                         (ObservationFactory._observations self)))
               = total_length w (ObservationFactory._observations self)).
  { rewrite length_concat_sum, map_map. reflexivity. }
  assert (Hl : Py.len (List.concat (map (fun o => Observation.labels o w)
                         (ObservationFactory._observations self)))
               = total_length w (ObservationFactory._observations self)).
  { rewrite length_concat_sum, map_map, <- (total_length_labels Hall). reflexivity. }
  split; [now rewrite Hv, Hl|exact Hl].
Qed.

Lemma get_observation_space_observations (generate : bool) (w : World)
    (self : Factory) :
  ObservationFactory._observations
    (snd (ObservationFactory.get_observation_space generate w self))
  = ObservationFactory._observations self.
Proof.
  destruct (ObservationFactory._observations self) as [|o l] eqn:E.
  - unfold ObservationFactory.get_observation_space, Py.bind. cbn [Py.get].
    rewrite E. cbn. exact E.
  - assert (Hne : ObservationFactory._observations self <> []) by (rewrite E; discriminate).
    destruct generate.
    + rewrite get_observation_space_rebuilt by auto. cbn. exact E.
    + destruct (ObservationFactory._obs_space self) as [b|] eqn:Eb.
      * rewrite get_observation_space_cached with (cached := b) by assumption.
        cbn. exact E.
      * rewrite get_observation_space_rebuilt by auto. cbn. exact E.
Qed.

(** What registration checked once holds in every later state for
    observations of fixed shape. *)
Lemma reachable_consistent (self : Factory) :
  reachable self ->
  forall w : World, Forall (consistent w) (ObservationFactory._observations self).
Proof.
  induction 1 as [c|w0 self self' obs obs' _ IH Hfix Hreg|g w0 self _ IH]; intros w.
  - constructor.
  - apply register_observation_inv in Hreg as ([C1 C2] & -> & ->).
    cbn. apply Forall_app. split; [apply IH|].
    constructor; [|constructor].
    apply consistent_bound_to.
    destruct (Hfix w w0) as (F1 & F2 & F3).
    split; congruence.
  - rewrite get_observation_space_observations. apply IH.
Qed.

Lemma label_counts_total (w : World) (l : list Obs) :
  Forall (labels_match w) l ->
  list_sum (map (label_count w) l) = total_length w l.
Proof.
  unfold total_length, list_sum.
  induction 1 as [|o l Ho _ IH]; cbn [map fold_right]; [reflexivity|].
  unfold labels_match in Ho. now rewrite Ho, IH.
Qed.

(** C3, as the code has it: on every factory with at least one
    registration, in every state of the simulation, [get_obs()] returns
    the computed vectors of the registered observations one after the
    other in the order of registration, and their labels one after the
    other in the same order, and leaves the factory as it was.  The
    vector has as many entries as the computed lengths add up to, the
    labels as many as the label counts add up to.  Nothing is checked at
    this point: the two lengths agree, and are the sum of the lengths of
    the registered observations, when each registered observation has,
    in the state of the call, one label per computed value. *)
Theorem get_obs_concatenates (w : World) (self : Factory) :
  ObservationFactory._observations self <> [] ->
  exists (vector : list num) (labels : list string),
    ObservationFactory.get_obs w self = (Py.Ok (vector, labels), self) /\
    vector = List.concat (map (fun o => Observation.compute o w)
                              (ObservationFactory._observations self)) /\
    labels = List.concat (map (fun o => Observation.labels o w)
                              (ObservationFactory._observations self)) /\
    Py.len vector = total_length w (ObservationFactory._observations self) /\
    Py.len labels
    = list_sum (map (label_count w) (ObservationFactory._observations self)) /\
    (Forall (labels_match w) (ObservationFactory._observations self) ->
     Py.len vector = Py.len labels /\
     Py.len labels = total_length w (ObservationFactory._observations self)).
Proof.
  intros Hne.
  eexists. eexists. split; [apply get_obs_run; exact Hne|].
  split; [reflexivity|]. split; [reflexivity|].
  assert (Hv : Py.len (List.concat (map (fun o => Observation.compute o w)
                         (ObservationFactory._observations self)))
               = total_length w (ObservationFactory._observations self)).
  { rewrite length_concat_sum, map_map. reflexivity. }
  assert (Hl : Py.len (List.concat (map (fun o => Observation.labels o w)
                         (ObservationFactory._observations self)))
               = list_sum (map (label_count w)
                               (ObservationFactory._observations self))).
  { rewrite length_concat_sum, map_map. reflexivity. }
  split; [exact Hv|]. split; [exact Hl|].
  intros Hall.
  assert (Hsum : list_sum (map (label_count w)
                              (ObservationFactory._observations self))
                 = total_length w (ObservationFactory._observations self)).
  { exact (label_counts_total Hall). }
  split; [now rewrite Hv, Hl, Hsum|now rewrite Hl, Hsum].
Qed.

(** On a factory arrived at by registering observations of fixed shape,
    with at least one of them, the check made at registration carries
    over to every later state: [get_obs()] returns a vector and labels
    of the same length. *)
Lemma get_obs_reachable (w : World) (self : Factory) :
  reachable self ->
  ObservationFactory._observations self <> [] ->
  exists (vector : list num) (labels : list string),
    ObservationFactory.get_obs w self = (Py.Ok (vector, labels), self) /\
    vector = List.concat (map (fun o => Observation.compute o w)
                              (ObservationFactory._observations self)) /\
    labels = List.concat (map (fun o => Observation.labels o w)
                              (ObservationFactory._observations self)) /\
    Py.len vector = Py.len labels /\
    Py.len labels = total_length w (ObservationFactory._observations self) /\
    Forall (consistent w) (ObservationFactory._observations self).
Proof.
  intros Hreach Hne.
  pose proof (reachable_consistent Hreach w) as Hall.
  destruct (@get_obs_of_consistent w self Hne Hall) as (vector & labels & H1 & H2 & H3 & H4 & H5).
  exists vector, labels. repeat split; assumption.
Qed.

(** *** Registration and the cached space *)

Lemma combined_space_app (w : World) (l : list Obs) (obs : Obs) :
  spaces.bounds (combined_space w (l ++ [obs]))
  = spaces.bounds (combined_space w l)
    ++ spaces.bounds (Observation.observation_space obs w).
Proof.
  unfold combined_space. cbn [spaces.bounds].
  rewrite flat_map_app. cbn [flat_map]. now rewrite app_nil_r.
Qed.

(** C1, as the code has it: a call of [register_observation(obs)] that
    returns normally appends [obs] to the registrations and leaves the
    cached space as it was.  Afterwards [get_observation_space()]
    returns the space cached before the registration when there is one,
    and builds (and caches) the space of all registrations, which ends
    with the bounds of [obs], only when none was cached or when
    [generate=True] is passed. *)
Theorem register_observation_keeps_cache (w : World) (self self' : Factory)
    (obs obs' : Obs) :
  ObservationFactory.register_observation w (self, obs)
  = (Py.Ok tt, (self', obs')) ->
  ObservationFactory._observations self'
  = ObservationFactory._observations self ++ [obs'] /\
  obs' = bound_to (ObservationFactory._client self) obs /\
  ObservationFactory._obs_space self' = ObservationFactory._obs_space self /\
  (forall w' : World,
     ObservationFactory.get_observation_space false w' self'
     = match ObservationFactory._obs_space self with
       | Some cached => (Py.Ok cached, self')
       | None =>
           (Py.Ok (combined_space w' (ObservationFactory._observations self')),
            with_cache self'
              (combined_space w' (ObservationFactory._observations self')))
       end) /\
  (forall w' : World,
     ObservationFactory.get_observation_space true w' self'
     = (Py.Ok (combined_space w' (ObservationFactory._observations self')),
        with_cache self'
          (combined_space w' (ObservationFactory._observations self')))) /\
  (forall w' : World,
     spaces.bounds (combined_space w' (ObservationFactory._observations self'))
     = spaces.bounds (combined_space w' (ObservationFactory._observations self))
       ++ spaces.bounds (Observation.observation_space obs w')).
Proof.
  intros Hreg.
  apply register_observation_inv in Hreg as (_ & -> & ->).
  set (obs' := bound_to (ObservationFactory._client self) obs).
  assert (Hobs : ObservationFactory._observations (with_registered self obs')
                 = ObservationFactory._observations self ++ [obs']) by reflexivity.
  assert (Hne : ObservationFactory._observations (with_registered self obs') <> []).
  { rewrite Hobs. destruct (ObservationFactory._observations self); discriminate. }
  split; [exact Hobs|]. split; [reflexivity|]. split; [reflexivity|].
  split; [|split].
  - intros w'.
    destruct (ObservationFactory._obs_space self) as [cached|] eqn:Ec.
    + apply get_observation_space_cached; [exact Hne|exact Ec].
    + apply get_observation_space_rebuilt; [exact Hne|right; exact Ec].
  - intros w'. apply get_observation_space_rebuilt; [exact Hne|left; reflexivity].
  - intros w'. rewrite Hobs, combined_space_app. reflexivity.
Qed.

End ObservationFactory_facts.

(** *** The sample objects, run *)

Example sample_registrations :
  ObservationFactory._observations Samples.factory_pose_cached_height
  = [bound_to 7 Samples.pose; bound_to 7 Samples.height] /\
  ObservationFactory.get_obs tt Samples.factory_pose_cached_height
  = (Py.Ok ([0.5; -0.5; 0.25]%float, ["x"; "y"; "z"]),
     Samples.factory_pose_cached_height).
Proof. split; reflexivity. Qed.

(** Every way in which two of the three counts can differ is refused,
    with the message of the comparison that fails first. *)
Example sample_mismatches :
  fst (ObservationFactory.register_observation tt
         (Samples.factory, Samples.short_space))
  = Py.Raise (Py.ValueError "Labels have length 2 != obs space len 1") /\
  fst (ObservationFactory.register_observation tt
         (Samples.factory, Samples.long_value))
  = Py.Raise (Py.ValueError "Labels have length 2 != obs len 3") /\
  fst (ObservationFactory.register_observation tt
         (Samples.factory, Samples.short_labels))
  = Py.Raise (Py.ValueError "Labels have length 1 != obs space len 2") /\
  fst (ObservationFactory.register_observation tt
         (Samples.factory, Samples.all_differ))
  = Py.Raise (Py.ValueError "Labels have length 1 != obs space len 2").
Proof. repeat split; reflexivity. Qed.

Lemma register_observation_validates_witness :
  ObservationFactory.register_observation tt (Samples.factory, Samples.pose)
  = (Py.Ok tt,
     (with_registered Samples.factory (bound_to 7 Samples.pose),
      bound_to 7 Samples.pose)) /\
  exists msg,
    ObservationFactory.register_observation tt
      (Samples.factory, Samples.long_value)
    = (Py.Raise (Py.ValueError msg),
       (Samples.factory, bound_to 7 Samples.long_value)).
Proof.
  split.
  - apply (proj1 (register_observation_validates tt Samples.factory Samples.pose)).
    repeat split; reflexivity.
  - apply (proj1 (proj2 (register_observation_validates tt Samples.factory
                           Samples.long_value))).
    right. left. vm_compute. discriminate.
Defined.

Lemma register_observation_failure_witness :
  ObservationFactory.register_observation tt
    (Samples.factory_pose, Samples.long_value)
  = (Py.Raise (Py.ValueError "Labels have length 2 != obs len 3"),
     (Samples.factory_pose, bound_to 7 Samples.long_value)) /\
  Observation._client Samples.long_value = None /\
  Observation._client (bound_to 7 Samples.long_value) = Some 7 /\
  forall w',
    ObservationFactory.get_obs w' Samples.factory_pose
    = ObservationFactory.get_obs w' Samples.factory_pose.
Proof.
  split; [reflexivity|]. split; [reflexivity|].
  assert (H : ObservationFactory.register_observation tt
                (Samples.factory_pose, Samples.long_value)
              = (Py.Raise (Py.ValueError "Labels have length 2 != obs len 3"),
                 (Samples.factory_pose, bound_to 7 Samples.long_value)))
    by reflexivity.
  destruct (@register_observation_failure Samples.World float tt _ _ _ _ _ H) as (_ & Hobs & _ & Hc & _).
  split; [exact Hc|exact Hobs].
Defined.

Lemma samples_fixed_shape (labels : list string) (space : list (float * float))
    (value : list float) :
  fixed_shape (Samples.observation labels space value).
Proof. intros w w'. repeat split. Defined.

Lemma samples_reachable : reachable Samples.factory_pose_cached_height.
Proof.
  apply (@reachable_register Samples.World float tt
           Samples.factory_pose_cached _ Samples.height (bound_to 7 Samples.height)).
  - apply (@reachable_space Samples.World float false tt Samples.factory_pose).
    apply (@reachable_register Samples.World float tt
             Samples.factory _ Samples.pose (bound_to 7 Samples.pose)).
    + apply reachable_new.
    + apply samples_fixed_shape.
    + reflexivity.
  - apply samples_fixed_shape.
  - reflexivity.
Defined.

Example get_obs_reachable_sample :
  exists (vector : list float) (labels : list string),
    ObservationFactory.get_obs tt Samples.factory_pose_cached_height
    = (Py.Ok (vector, labels), Samples.factory_pose_cached_height) /\
    Py.len vector = Py.len labels.
Proof.
  destruct (@get_obs_reachable Samples.World float tt
              Samples.factory_pose_cached_height samples_reachable)
    as (vector & labels & H1 & _ & _ & H4 & _).
  - vm_compute. discriminate.
  - exists vector, labels. split; assumption.
Qed.

Lemma get_obs_concatenates_witness :
  exists (vector : list float) (labels : list string),
    ObservationFactory.get_obs tt Samples.factory_pose_cached_height
    = (Py.Ok (vector, labels), Samples.factory_pose_cached_height) /\
    vector = [0.5; -0.5; 0.25]%float /\
    labels = ["x"; "y"; "z"] /\
    Py.len vector = Py.len labels /\
    Py.len labels
    = total_length tt (ObservationFactory._observations
                         Samples.factory_pose_cached_height).
Proof.
  destruct (@get_obs_concatenates Samples.World float tt
              Samples.factory_pose_cached_height)
    as (vector & labels & H1 & H2 & H3 & _ & _ & Hcond).
  - vm_compute. discriminate.
  - destruct Hcond as [H4 H5].
    + repeat constructor.
    + exists vector, labels. repeat split; assumption.
Defined.

(** C3, counterexample: [per_body] is registered while the simulation
    holds one body, where its one label, one bound and one value agree,
    so the registration returns normally.  Called when the simulation
    holds two bodies, [get_obs()] returns two values under one label. *)
Lemma get_obs_lengths_disagree :
  ObservationFactory.register_observation 1
    (ObservationFactory.__init__ DriftSamples.World float 7,
     DriftSamples.per_body)
  = (Py.Ok tt, (DriftSamples.factory_per_body, bound_to 7 DriftSamples.per_body)) /\
  ObservationFactory.get_obs 2 DriftSamples.factory_per_body
  = (Py.Ok ([0.5; 0.5]%float, ["height"]), DriftSamples.factory_per_body) /\
  Py.len [0.5; 0.5]%float = 2 /\
  Py.len ["height"] = 1 /\
  ~ registered_lengths_agree DriftSamples.World float.
Proof.
  split; [reflexivity|]. split; [reflexivity|].
  split; [reflexivity|]. split; [reflexivity|].
  intros H.
  specialize (H 1 2 7 DriftSamples.per_body (bound_to 7 DriftSamples.per_body)
                DriftSamples.factory_per_body DriftSamples.factory_per_body
                [0.5; 0.5]%float ["height"] eq_refl eq_refl).
  discriminate H.
Qed.

(** C1, counterexample: [pose] is registered and the space is read once,
    which caches the space of [pose]; then [height] is registered,
    normally.  The cached space is still there, and
    [get_observation_space()] returns it: two bounds, the bound of
    [height] not among them, where the space of the two registrations
    has three. *)
Lemma register_observation_stale_cache :
  ObservationFactory.register_observation tt
    (Samples.factory_pose_cached, Samples.height)
  = (Py.Ok tt, (Samples.factory_pose_cached_height, bound_to 7 Samples.height)) /\
  ObservationFactory._obs_space Samples.factory_pose_cached_height
  = Some (spaces.mkBox [(-1, 1); (-1, 1)]%float) /\
  ObservationFactory.get_observation_space false tt
    Samples.factory_pose_cached_height
  = (Py.Ok (spaces.mkBox [(-1, 1); (-1, 1)]%float),
     Samples.factory_pose_cached_height) /\
  ~ In (0, infinity)%float
       (spaces.bounds (spaces.mkBox [(-1, 1); (-1, 1)]%float)) /\
  combined_space tt
    (ObservationFactory._observations Samples.factory_pose_cached_height)
  = spaces.mkBox [(-1, 1); (-1, 1); (0, infinity)]%float /\
  ~ registration_invalidates_cache Samples.World float.
Proof.
  split; [reflexivity|]. split; [reflexivity|]. split; [reflexivity|].
  split; [|split; [reflexivity|]].
  - cbn [spaces.bounds In].
    intros [H|[H|[]]];
      apply (f_equal (fun p => PrimFloat.eqb (fst p) 0)) in H;
      vm_compute in H; discriminate H.
  - intros H.
    destruct (H tt Samples.factory_pose_cached Samples.factory_pose_cached_height
                Samples.height (bound_to 7 Samples.height) eq_refl) as [_ Hspace].
    specialize (Hspace tt).
    apply (f_equal (fun r => match r with
                             | Py.Ok b => Py.len (spaces.bounds b)
                             | Py.Raise _ => 0
                             end)) in Hspace.
    discriminate Hspace.
Qed.

Lemma register_observation_keeps_cache_witness :
  ObservationFactory._observations Samples.factory_pose_cached_height
  = ObservationFactory._observations Samples.factory_pose_cached
    ++ [bound_to 7 Samples.height] /\
  ObservationFactory._obs_space Samples.factory_pose_cached_height
  = ObservationFactory._obs_space Samples.factory_pose_cached /\
  ObservationFactory.get_observation_space true tt
    Samples.factory_pose_cached_height
  = (Py.Ok (spaces.mkBox [(-1, 1); (-1, 1); (0, infinity)]%float),
     with_cache Samples.factory_pose_cached_height
       (spaces.mkBox [(-1, 1); (-1, 1); (0, infinity)]%float)).
Proof.
  assert (H : ObservationFactory.register_observation tt
                (Samples.factory_pose_cached, Samples.height)
              = (Py.Ok tt, (Samples.factory_pose_cached_height,
                            bound_to 7 Samples.height)))
    by reflexivity.
  destruct (@register_observation_keeps_cache Samples.World float tt _ _ _ _ H) as (H1 & _ & H3 & _ & H5 & _).
  split; [exact H1|]. split; [exact H3|]. exact (H5 tt).
Defined.

(** ** The reward factory *)

Import RewardSpec.

Section RewardFactory_facts.
Variable World : Type.
Variable num : Type.
Variable zero : num.
Variable add : num -> num -> num.
Variable mul : num -> num -> num.

Lemma register_all_run (pairs : list (num * Reward.t World num))
    (self : RewardFactory.t World num) :
  register_all pairs self
  = (Py.Ok tt,
     {| RewardFactory._rewards :=
          RewardFactory._rewards self ++ map (@entry World num) pairs |}).
Proof.
  revert self.
  induction pairs as [|p rest IH]; intros [rewards]; cbn [register_all map].
  - cbn. now rewrite app_nil_r.
  - unfold Py.bind, RewardFactory.register_reward, Py.modify.
    rewrite IH. cbn [RewardFactory._rewards]. now rewrite <- app_assoc.
Qed.

Lemma registered_rewards (pairs : list (num * Reward.t World num)) :
  RewardFactory._rewards (registered pairs) = map (@entry World num) pairs.
Proof. unfold registered. now rewrite register_all_run. Qed.

Lemma get_reward_run (w : World) (self : RewardFactory.t World num) :
  RewardFactory._rewards self <> [] ->
  RewardFactory.get_reward zero add mul w self
  = (Py.Ok (fold_left add
              (map (fun wr => mul (RewardFactory.weight wr)
                                  (Reward.compute (RewardFactory.reward wr) w))
                   (RewardFactory._rewards self))
              zero),
     self).
Proof.
  intros H. unfold RewardFactory.get_reward, Py.bind. cbn [Py.get].
  rewrite (not_nonempty H). reflexivity.
Qed.

(** Over exact numbers the running total of the builtin [sum] is the
    sum written by recursion. *)
Lemma sum_weighted_sum (w : World)
    (rewards : list (RewardFactory._WeightedReward World num)) :
  (forall x y z, add x (add y z) = add (add x y) z) ->
  (forall x, add zero x = add x zero) ->
  Py.sum zero add
    (map (fun wr => mul (RewardFactory.weight wr)
                        (Reward.compute (RewardFactory.reward wr) w))
         rewards)
  = RewardFactory.weighted_sum zero add mul w rewards.
Proof.
  intros Hassoc Hzero. unfold Py.sum.
  rewrite (fold_symmetric add Hassoc zero Hzero).
  induction rewards as [|wr rest IH]; cbn; [reflexivity|now rewrite IH].
Qed.

(** C5: with at least one pair registered, [get_reward()] returns the
    products [weight * reward.compute()] of the registered pairs added
    up from [0] in the order of registration, and nothing else is done
    to the total or asked of the weights.  Over numbers whose addition
    is exact (associative, with [0] commuting) this is the sum
    [w1 * r1 + (w2 * r2 + ...)] of the documentation. *)
Theorem get_reward_weighted_sum (w : World)
    (pairs : list (num * Reward.t World num)) :
  pairs <> [] ->
  RewardFactory.get_reward zero add mul w (registered pairs)
  = (Py.Ok (Py.sum zero add (map (term mul w) pairs)), registered pairs) /\
  ((forall x y z, add x (add y z) = add (add x y) z) ->
   (forall x, add zero x = add x zero) ->
   Py.sum zero add (map (term mul w) pairs)
   = RewardFactory.weighted_sum zero add mul w
       (RewardFactory._rewards (registered pairs))).
Proof.
  intros Hne.
  assert (Hmap : map (fun wr => mul (RewardFactory.weight wr)
                                    (Reward.compute (RewardFactory.reward wr) w))
                     (RewardFactory._rewards (registered pairs))
                 = map (term mul w) pairs).
  { rewrite registered_rewards, map_map. reflexivity. }
  split.
  - rewrite get_reward_run.
    + rewrite Hmap. reflexivity.
    + rewrite registered_rewards. destruct pairs; [congruence|discriminate].
  - intros Hassoc Hzero. rewrite <- Hmap. now apply sum_weighted_sum.
Qed.

End RewardFactory_facts.

(** The example of the specification, weights 1.0 and -2.0 on rewards
    computing to 3.0 and 1.0: in binary64 floating point, and over the
    integers, where addition is exact. *)
Lemma get_reward_weighted_sum_witness :
  RewardFactory.get_reward 0%float PrimFloat.add PrimFloat.mul tt
    (registered [(1%float, Samples.constant_reward 3%float);
                 ((-2)%float, Samples.constant_reward 1%float)])
  = (Py.Ok 1%float,
     registered [(1%float, Samples.constant_reward 3%float);
                 ((-2)%float, Samples.constant_reward 1%float)]) /\
  RewardFactory.weighted_sum 0%Z Z.add Z.mul tt
    (RewardFactory._rewards
       (registered [(1%Z, Samples.constant_reward 3%Z);
                    ((-2)%Z, Samples.constant_reward 1%Z)]))
  = Py.sum 0%Z Z.add [(1 * 3)%Z; (-2 * 1)%Z].
Proof.
  split.
  - refine (eq_trans
      (proj1 (@get_reward_weighted_sum Samples.World float 0%float
                PrimFloat.add PrimFloat.mul tt
                [(1%float, Samples.constant_reward 3%float);
                 ((-2)%float, Samples.constant_reward 1%float)] _)) _).
    + discriminate.
    + reflexivity.
  - symmetry.
    refine (proj2 (@get_reward_weighted_sum Samples.World Z 0%Z Z.add Z.mul tt
                     [(1%Z, Samples.constant_reward 3%Z);
                      ((-2)%Z, Samples.constant_reward 1%Z)] _) _ _).
    + discriminate.
    + intros x y z. apply Z.add_assoc.
    + intros x. apply Z.add_comm.
Defined.

Example get_reward_integers :
  RewardFactory.get_reward 0%Z Z.add Z.mul tt
    (registered [(1%Z, Samples.constant_reward 3%Z);
                 ((-2)%Z, Samples.constant_reward 1%Z)])
  = (Py.Ok 1%Z,
     registered [(1%Z, Samples.constant_reward 3%Z);
                 ((-2)%Z, Samples.constant_reward 1%Z)]).
Proof. reflexivity. Qed.

(** ** Empty registries *)

(** C4: with no registration, [get_obs()] and [get_observation_space()]
    (whatever [generate] is, and whatever is cached) raise a ValueError
    and leave the factory as it was; so does [get_reward()] with no
    reward registered. *)
Theorem empty_registry_raises :
  (forall (World num : Type) (c : bullet_client.BulletClient)
          (cache : option (spaces.Box num)) (generate : bool) (w : World),
     let self : ObservationFactory.t World num :=
       {| ObservationFactory._client := c;
          ObservationFactory._observations := [];
          ObservationFactory._obs_space := cache |} in
     ObservationFactory.get_obs w self
     = (Py.Raise (Py.ValueError
          "Need to register at least one observation instance"), self) /\
     ObservationFactory.get_observation_space generate w self
     = (Py.Raise (Py.ValueError
          "Can't generate an empty observation space"), self)) /\
  (forall (World num : Type) (zero : num) (add mul : num -> num -> num)
          (w : World),
     let self : RewardFactory.t World num :=
       {| RewardFactory._rewards := [] |} in
     RewardFactory.get_reward zero add mul w self
     = (Py.Raise (Py.ValueError
          "Need to register at least one reward instance"), self)).
Proof.
  split.
  - intros World num c cache generate w. cbv zeta. split; reflexivity.
  - intros World num zero add mul w. reflexivity.
Qed.

(** ** Termination conditions *)

Section Termination_facts.
Import termination.

Lemma is_terminated_run (self : TimeBasedTermination) :
  TimeBased_is_terminated self
  = (Py.Ok (Z.ltb (max_step_delta self) (step_delta self + 1)),
     {| max_step_delta := max_step_delta self;
        step_delta := step_delta self + 1 |}).
Proof. reflexivity. Qed.

(** From a counter at [k], [n] calls that stay within the threshold all
    return false and count [k + 1], ..., [k + n]. *)
Lemma calls_below_threshold (n : nat) :
  forall (k max : Z),
    (k + Z.of_nat n <= max)%Z ->
    calls_reading_step_delta n {| max_step_delta := max; step_delta := k |}
    = (Py.Ok (map (fun i => (false, (k + Z.of_nat i)%Z)) (seq 1 n)),
       {| max_step_delta := max; step_delta := k + Z.of_nat n |}).
Proof.
  induction n as [|n IH]; intros k max Hk.
  - cbn. now rewrite Z.add_0_r.
  - assert (Hlt : Z.ltb max (k + 1) = false) by (apply Z.ltb_ge; lia).
    cbn [calls_reading_step_delta]. unfold Py.bind, Py.get, Py.ret.
    rewrite is_terminated_run. cbn [max_step_delta step_delta].
    rewrite IH by lia. rewrite Hlt.
    replace (k + 1 + Z.of_nat n)%Z with (k + Z.of_nat (S n))%Z by lia.
    f_equal. f_equal. cbn [seq map].
    change (Z.of_nat 1) with 1%Z. f_equal.
    rewrite <- (seq_shift n 1), map_map.
    apply map_ext. intros i. f_equal. lia.
Qed.

(** C6: on a new TimeBasedTermination with threshold [N], the first [N]
    calls of [is_terminated()] return false and leave [step_delta] at
    1, 2, ..., [N]; the next call returns true with [step_delta] at
    [N + 1]; and [reset()] turns any instance into the one its
    constructor builds for the same threshold, so what follows a reset
    is what follows construction. *)
Theorem time_based_termination (N : nat) :
  calls_reading_step_delta N (TimeBasedTermination__init__ (Z.of_nat N))
  = (Py.Ok (map (fun i => (false, Z.of_nat i)) (seq 1 N)),
     {| max_step_delta := Z.of_nat N; step_delta := Z.of_nat N |}) /\
  TimeBased_is_terminated
    {| max_step_delta := Z.of_nat N; step_delta := Z.of_nat N |}
  = (Py.Ok true,
     {| max_step_delta := Z.of_nat N; step_delta := Z.of_nat N + 1 |}) /\
  (forall self : TimeBasedTermination,
     TimeBased_reset self
     = (Py.Ok tt, TimeBasedTermination__init__ (max_step_delta self))).
Proof.
  split; [|split].
  - unfold TimeBasedTermination__init__.
    rewrite calls_below_threshold by lia. reflexivity.
  - rewrite is_terminated_run. cbn [max_step_delta step_delta].
    assert (H : Z.ltb (Z.of_nat N) (Z.of_nat N + 1) = true)
      by (apply Z.ltb_lt; lia).
    now rewrite H.
  - intros self. reflexivity.
Qed.

(** The test of the sources: threshold 3, three calls, a fourth, and a
    reset. *)
Example time_based_termination_3 :
  calls_reading_step_delta 4 (TimeBasedTermination__init__ 3)
  = (Py.Ok [(false, 1%Z); (false, 2%Z); (false, 3%Z); (true, 4%Z)],
     {| max_step_delta := 3; step_delta := 4 |}) /\
  snd (TimeBased_reset {| max_step_delta := 3; step_delta := 4 |})
  = TimeBasedTermination__init__ 3.
Proof. split; reflexivity. Qed.

(** C7: [is_terminated()] of a PerpetualTermination returns false at
    every call, however many calls came before. *)
Theorem perpetual_never_terminates (n : nat) (self : PerpetualTermination) :
  calls n self = (Py.Ok (repeat false n), self) /\
  is_terminated (snd (calls n self)) = (Py.Ok false, snd (calls n self)).
Proof.
  assert (H : calls n self = (Py.Ok (repeat false n), self)).
  { induction n as [|n IH]; [reflexivity|].
    cbn [calls repeat]. unfold Py.bind at 1. cbn [is_terminated Perpetual_condition].
    unfold Perpetual_is_terminated at 1. cbn [Py.ret].
    unfold Py.bind at 1. rewrite IH. reflexivity. }
  split; [exact H|]. rewrite H. reflexivity.
Qed.

(** The test of the sources: a thousand calls. *)
Lemma perpetual_never_terminates_witness :
  calls 1000 mkPerpetual = (Py.Ok (repeat false 1000), mkPerpetual).
Proof. exact (proj1 (perpetual_never_terminates 1000 mkPerpetual)). Defined.

End Termination_facts.

(** ** Constructing an environment *)

Section Solo8BaseEnv_facts.
Import envs.
Variable Config : Type.
Variable S : Type.

Lemma init_run (lb : Py.M S unit) (rs : bool -> Py.M S unit)
    (cfg : Config) (use_gui : bool) (self : t Config S) (a1 a2 : S) :
  lb (attrs self) = (Py.Ok tt, a1) ->
  rs true a1 = (Py.Ok tt, a2) ->
  __init__ lb rs cfg use_gui self
  = (Py.Ok tt,
     {| config := Some cfg;
        client := Some (if use_gui then GUI else DIRECT);
        attrs := a2;
        history := history self ++
                   [Connect (if use_gui then GUI else DIRECT);
                    Configure; LoadBodies; Reset true] |}).
Proof.
  intros Hlb Hrs.
  destruct self as [cfg0 client0 attrs0 history0].
  cbn [attrs history] in *.
  cbv beta iota zeta
    delta [__init__ Py.bind Py.modify did on_attrs attrs history config client].
  rewrite Hlb.
  cbv beta iota zeta delta [attrs history config client].
  rewrite Hrs, <- !app_assoc. reflexivity.
Qed.

(** C8: calling the abstract base class fails, before anything is
    initialised; calling a class that supplies [load_bodies] and [reset]
    (both returning normally) yields an environment that, when the
    constructor returns, has called [load_bodies()] once and [reset]
    once, with [from_init=True], and has not stepped: a first [step]
    comes after both. *)
Theorem construction (attrs0 : S) (cfg : Config) (use_gui : bool) :
  (exists msg,
     new (Solo8BaseEnv S) attrs0 cfg use_gui = Py.Raise (Py.TypeError msg)) /\
  (forall (lb : Py.M S unit) (rs : bool -> Py.M S unit) (a1 a2 : S),
     lb attrs0 = (Py.Ok tt, a1) ->
     rs true a1 = (Py.Ok tt, a2) ->
     exists self : t Config S,
       new {| load_bodies := Some lb; reset := Some rs |} attrs0 cfg use_gui
       = Py.Ok self /\
       history self
       = [Connect (if use_gui then GUI else DIRECT);
          Configure; LoadBodies; Reset true] /\
       times is_LoadBodies self = 1 /\
       times is_Reset self = 1 /\
       times is_Reset_from_init self = 1 /\
       times is_Step self = 0 /\
       history (snd (step self))
       = [Connect (if use_gui then GUI else DIRECT);
          Configure; LoadBodies; Reset true; Step] /\
       attrs self = a2 /\
       config self = Some cfg).
Proof.
  split.
  - eexists. reflexivity.
  - intros lb rs a1 a2 Hlb Hrs.
    eexists. split.
    + unfold new. cbn [load_bodies reset].
      rewrite (@init_run lb rs cfg use_gui _ a1 a2); [reflexivity|exact Hlb|exact Hrs].
    + repeat split.
Qed.

End Solo8BaseEnv_facts.

(** The class of the tests: after [SimpleSoloEnv(config, use_gui)] both
    of its flags are set, and [reset] was passed [True]. *)
Lemma construction_witness :
  (exists msg,
     envs.new (envs.Solo8BaseEnv envs.SimpleSoloEnv_attrs)
       {| envs.reset_call := None; envs.load_bodies_call := None |} tt false
     = Py.Raise (Py.TypeError msg)) /\
  exists self : envs.t unit envs.SimpleSoloEnv_attrs,
    envs.SimpleSoloEnv_new tt false = Py.Ok self /\
    envs.history self
    = [envs.Connect envs.DIRECT; envs.Configure; envs.LoadBodies;
       envs.Reset true] /\
    envs.attrs self
    = {| envs.reset_call := Some true; envs.load_bodies_call := Some true |}.
Proof.
  destruct (@construction unit envs.SimpleSoloEnv_attrs
              {| envs.reset_call := None; envs.load_bodies_call := None |}
              tt false) as [Habs Hcon].
  split; [exact Habs|].
  destruct (Hcon envs.SimpleSoloEnv_load_bodies envs.SimpleSoloEnv_reset
              {| envs.reset_call := None; envs.load_bodies_call := Some true |}
              {| envs.reset_call := Some true; envs.load_bodies_call := Some true |}
              eq_refl eq_refl)
    as (self & Hnew & Hhist & _ & _ & _ & _ & _ & Hattrs & _).
  exists self. split; [exact Hnew|]. split; [exact Hhist|exact Hattrs].
Defined.

(* ================================================================== *)
(** * Further properties of the factories *)

Section ObservationFactory_more.
Variable World : Type.
Variable num : Type.

Let Obs : Type := Observation.t World num.
Let Factory : Type := ObservationFactory.t World num.

Lemma get_obs_empty (w : World) (self : Factory) :
  ObservationFactory._observations self = [] ->
  ObservationFactory.get_obs w self
  = (Py.Raise (Py.ValueError
       "Need to register at least one observation instance"), self).
Proof.
  intros E. unfold ObservationFactory.get_obs, Py.bind. cbn [Py.get].
  rewrite E. reflexivity.
Qed.

Lemma get_observation_space_empty (generate : bool) (w : World) (self : Factory) :
  ObservationFactory._observations self = [] ->
  ObservationFactory.get_observation_space generate w self
  = (Py.Raise (Py.ValueError "Can't generate an empty observation space"), self).
Proof.
  intros E. unfold ObservationFactory.get_observation_space, Py.bind.
  cbn [Py.get]. rewrite E. reflexivity.
Qed.

(** Every outcome of [get_observation_space], by cases on the registry,
    the cache and the flag. *)
Lemma get_observation_space_cases (generate : bool) (w : World) (self : Factory) :
  (ObservationFactory._observations self = [] /\
   ObservationFactory.get_observation_space generate w self
   = (Py.Raise (Py.ValueError "Can't generate an empty observation space"),
      self)) \/
  (ObservationFactory._observations self <> [] /\
   generate = false /\
   exists cached,
     ObservationFactory._obs_space self = Some cached /\
     ObservationFactory.get_observation_space generate w self
     = (Py.Ok cached, self)) \/
  (ObservationFactory._observations self <> [] /\
   (generate = true \/ ObservationFactory._obs_space self = None) /\
   ObservationFactory.get_observation_space generate w self
   = (Py.Ok (combined_space w (ObservationFactory._observations self)),
      with_cache self
        (combined_space w (ObservationFactory._observations self)))).
Proof.
  destruct (ObservationFactory._observations self) as [|o l] eqn:E.
  - left. split; [reflexivity|]. now apply get_observation_space_empty.
  - assert (Hne : ObservationFactory._observations self <> [])
      by (rewrite E; discriminate).
    right. rewrite <- E.
    destruct generate.
    + right. split; [exact Hne|]. split; [now left|].
      apply get_observation_space_rebuilt; auto.
    + destruct (ObservationFactory._obs_space self) as [b|] eqn:Eb.
      * left. split; [exact Hne|]. split; [reflexivity|].
        exists b. split; [reflexivity|].
        now apply get_observation_space_cached.
      * right. split; [exact Hne|]. split; [now right|].
        apply get_observation_space_rebuilt; auto.
Qed.

(** X1: a call of [get_observation_space] that returns a space leaves
    that very space in the cache and touches neither the registrations
    nor the client; from then on every call without [generate] returns
    the same space and changes nothing, whatever the simulation has
    become. *)
Theorem get_observation_space_caches (generate : bool) (w : World)
    (self self' : Factory) (b : spaces.Box num) :
  ObservationFactory.get_observation_space generate w self = (Py.Ok b, self') ->
  ObservationFactory._obs_space self' = Some b /\
  ObservationFactory._observations self' = ObservationFactory._observations self /\
  ObservationFactory._client self' = ObservationFactory._client self /\
  forall w' : World,
    ObservationFactory.get_observation_space false w' self' = (Py.Ok b, self').
Proof.
  intros H.
  assert (Hkey : ObservationFactory._obs_space self' = Some b /\
                 ObservationFactory._observations self'
                 = ObservationFactory._observations self /\
                 ObservationFactory._client self'
                 = ObservationFactory._client self /\
                 ObservationFactory._observations self <> []).
  { destruct (get_observation_space_cases generate w self)
      as [[_ E]|[(Hne & _ & cached & Ec & E)|(Hne & _ & E)]];
      rewrite E in H.
    - discriminate H.
    - injection H as <- <-. repeat split; assumption.
    - injection H as <- <-. repeat split; assumption. }
  destruct Hkey as (Hc & Ho & Hcl & Hne).
  repeat split; try assumption.
  intros w'. apply get_observation_space_cached; [|exact Hc].
  rewrite Ho. exact Hne.
Qed.

Lemma length_flat_map_sum (A B : Type) (f : A -> list B) (l : list A) :
  Py.len (flat_map f l) = list_sum (map (fun a => Py.len (f a)) l).
Proof.
  unfold Py.len, list_sum.
  induction l as [|a l IH]; cbn [flat_map map fold_right]; [reflexivity|].
  now rewrite length_app, IH.
Qed.


Lemma combined_space_length (w : World) (l : list Obs) :
  Forall (consistent w) l ->
  Py.len (spaces.low (combined_space w l)) = total_length w l /\
  Py.len (spaces.high (combined_space w l)) = total_length w l.
Proof.
  intros Hall.
  assert (H : Py.len (spaces.bounds (combined_space w l)) = total_length w l).
  { cbn [combined_space spaces.bounds]. rewrite length_flat_map_sum.
    unfold total_length, list_sum.
    induction Hall as [|o l' [Hb Hc] _ IH]; cbn [map fold_right]; [reflexivity|].
    rewrite IH. f_equal.
    unfold label_count, bound_count, computed_length, spaces.low, Py.len in *.
    rewrite length_map in Hb. congruence. }
  unfold spaces.low, spaces.high, Py.len in *. now rewrite !length_map.
Qed.

(** X3: on a factory arrived at by registrations of observations of
    fixed shape, with at least one of them, the space rebuilt with
    [generate=True] has as many lower and as many upper bounds as
    [get_obs] returns values and labels, in every state of the
    simulation. *)
Theorem regenerated_space_matches_get_obs (w : World) (self : Factory) :
  reachable self ->
  ObservationFactory._observations self <> [] ->
  exists (b : spaces.Box num) (vector : list num) (labels : list string),
    fst (ObservationFactory.get_observation_space true w self) = Py.Ok b /\
    ObservationFactory.get_obs w self = (Py.Ok (vector, labels), self) /\
    Py.len (spaces.low b) = Py.len vector /\
    Py.len (spaces.high b) = Py.len vector /\
    Py.len (spaces.low b) = Py.len labels.
Proof.
  intros Hreach Hne.
  pose proof (reachable_consistent Hreach w) as Hall.
  destruct (@get_obs_of_consistent World num w self Hne Hall)
    as (vector & labels & Hobs & _ & _ & Hvl & Hl).
  destruct (combined_space_length Hall) as [Hlow Hhigh].
  exists (combined_space w (ObservationFactory._observations self)), vector, labels.
  split.
  - rewrite get_observation_space_rebuilt by auto. reflexivity.
  - split; [exact Hobs|]. repeat split; congruence.
Qed.

(** X4: after a registration that returns normally, [get_obs] returns
    what the earlier registrations give, followed by the computed vector
    of the new observation, and their labels followed by its labels:
    earlier entries keep their positions. *)
Theorem get_obs_after_registration (w : World) (self self' : Factory)
    (obs obs' : Obs) :
  ObservationFactory.register_observation w (self, obs)
  = (Py.Ok tt, (self', obs')) ->
  forall w' : World,
    ObservationFactory.get_obs w' self'
    = (Py.Ok
         (List.concat (map (fun o => Observation.compute o w')
                           (ObservationFactory._observations self))
            ++ Observation.compute obs w',
          List.concat (map (fun o => Observation.labels o w')
                           (ObservationFactory._observations self))
            ++ Observation.labels obs w'),
       self').
Proof.
  intros Hreg w'.
  apply register_observation_inv in Hreg as (_ & -> & ->).
  rewrite get_obs_run.
  - cbn [with_registered ObservationFactory.append Py.modify snd
         ObservationFactory._observations].
    rewrite !map_app, !concat_app. cbn [map List.concat].
    rewrite !app_nil_r. reflexivity.
  - cbn. destruct (ObservationFactory._observations self); discriminate.
Qed.

End ObservationFactory_more.

From Stdlib Require Import Permutation.

Section RewardFactory_more.
Variable World : Type.
Variable num : Type.
Variable zero : num.
Variable add : num -> num -> num.
Variable mul : num -> num -> num.

Let Factory : Type := RewardFactory.t World num.

(** The total [get_reward] computes on the registrations of [self]. *)
Let total (w : World) (self : Factory) : num :=
  Py.sum zero add
    (map (fun wr => mul (RewardFactory.weight wr)
                        (Reward.compute (RewardFactory.reward wr) w))
         (RewardFactory._rewards self)).

Lemma get_reward_cases (w : World) (self : Factory) :
  (RewardFactory._rewards self = [] /\
   RewardFactory.get_reward zero add mul w self
   = (Py.Raise (Py.ValueError
        "Need to register at least one reward instance"), self)) \/
  (RewardFactory._rewards self <> [] /\
   RewardFactory.get_reward zero add mul w self = (Py.Ok (total w self), self)).
Proof.
  destruct (RewardFactory._rewards self) as [|wr l] eqn:E.
  - left. split; [reflexivity|].
    unfold RewardFactory.get_reward, Py.bind. cbn [Py.get]. rewrite E. reflexivity.
  - right. split; [discriminate|].
    rewrite get_reward_run by (rewrite E; discriminate). reflexivity.
Qed.

(** X5: [register_reward] always returns, and afterwards [get_reward]
    returns the earlier total plus [weight * reward.compute()], the new
    product being added last; on a factory that had no reward the
    earlier total is the [0] the sum starts from.  No property of the
    arithmetic is used, so this holds in floating point as it stands. *)
Theorem get_reward_after_registration (w : World) (self : Factory)
    (weight : num) (reward : Reward.t World num) :
  exists self' : Factory,
    RewardFactory.register_reward weight reward self = (Py.Ok tt, self') /\
    RewardFactory.get_reward zero add mul w self'
    = (Py.Ok (add (total w self) (mul weight (Reward.compute reward w))), self') /\
    (forall (earlier : num) (s : Factory),
       RewardFactory.get_reward zero add mul w self = (Py.Ok earlier, s) ->
       RewardFactory.get_reward zero add mul w self'
       = (Py.Ok (add earlier (mul weight (Reward.compute reward w))), self')) /\
    (RewardFactory._rewards self = [] ->
     RewardFactory.get_reward zero add mul w self'
     = (Py.Ok (add zero (mul weight (Reward.compute reward w))), self')).
Proof.
  exists (snd (RewardFactory.register_reward weight reward self)).
  split; [reflexivity|].
  assert (Hnew : RewardFactory.get_reward zero add mul w
                   (snd (RewardFactory.register_reward weight reward self))
                 = (Py.Ok (add (total w self)
                               (mul weight (Reward.compute reward w))),
                    snd (RewardFactory.register_reward weight reward self))).
  { rewrite get_reward_run.
    - cbn [RewardFactory.register_reward Py.modify snd RewardFactory._rewards].
      rewrite map_app, fold_left_app. reflexivity.
    - cbn. destruct (RewardFactory._rewards self); discriminate. }
  split; [exact Hnew|]. split.
  - intros earlier s H. rewrite Hnew.
    destruct (get_reward_cases w self) as [[_ E]|[_ E]]; rewrite E in H.
    + discriminate H.
    + injection H as <- _. reflexivity.
  - intros E. rewrite Hnew. unfold total. rewrite E. reflexivity.
Qed.

Lemma weighted_sum_permutation (w : World)
    (l l' : list (RewardFactory._WeightedReward World num)) :
  (forall x y z, add x (add y z) = add (add x y) z) ->
  (forall x y, add x y = add y x) ->
  Permutation l l' ->
  RewardFactory.weighted_sum zero add mul w l
  = RewardFactory.weighted_sum zero add mul w l'.
Proof.
  intros Hassoc Hcomm.
  induction 1 as [|x l l' _ IH|x y l|l l' l'' _ IH1 _ IH2];
    cbn [RewardFactory.weighted_sum].
  - reflexivity.
  - now rewrite IH.
  - rewrite !Hassoc. f_equal. apply Hcomm.
  - now rewrite IH1.
Qed.

(** X6: over numbers whose addition is associative and commutative, the
    order of registration does not matter to [get_reward]: two factories
    holding the same weighted rewards in different orders return the
    same result (the same total, or the same error when both are
    empty). *)
Theorem get_reward_order_irrelevant (w : World) (self self' : Factory) :
  (forall x y z, add x (add y z) = add (add x y) z) ->
  (forall x y, add x y = add y x) ->
  Permutation (RewardFactory._rewards self) (RewardFactory._rewards self') ->
  fst (RewardFactory.get_reward zero add mul w self)
  = fst (RewardFactory.get_reward zero add mul w self').
Proof.
  intros Hassoc Hcomm Hperm.
  destruct (get_reward_cases w self) as [[E H]|[E H]];
    destruct (get_reward_cases w self') as [[E' H']|[E' H']];
    rewrite H, H'; cbn [fst].
  - reflexivity.
  - rewrite E in Hperm. apply Permutation_nil in Hperm. contradiction.
  - rewrite E' in Hperm. apply Permutation_sym, Permutation_nil in Hperm.
    contradiction.
  - f_equal. unfold total.
    rewrite !sum_weighted_sum by (auto; intros; apply Hcomm).
    now apply weighted_sum_permutation.
Qed.

(** X7: over numbers with an exact, distributive arithmetic the result
    of [get_reward] is linear in the weights: with every weight
    multiplied by [k] the total is [k] times what it was. *)
Theorem get_reward_scales (w : World) (k : num)
    (pairs : list (num * Reward.t World num)) :
  (forall x y z, add x (add y z) = add (add x y) z) ->
  (forall x, add zero x = add x zero) ->
  (forall x y z, mul x (mul y z) = mul (mul x y) z) ->
  (forall x y z, mul x (add y z) = add (mul x y) (mul x z)) ->
  mul k zero = zero ->
  pairs <> [] ->
  exists t : num,
    fst (RewardFactory.get_reward zero add mul w (registered pairs)) = Py.Ok t /\
    fst (RewardFactory.get_reward zero add mul w
           (registered (map (fun p => (mul k (fst p), snd p)) pairs)))
    = Py.Ok (mul k t).
Proof.
  intros Hassoc Hzero Hmassoc Hdistr Hk0 Hne.
  eexists. split.
  - rewrite get_reward_run; [reflexivity|].
    rewrite registered_rewards. destruct pairs; [congruence|discriminate].
  - rewrite get_reward_run.
    + cbn [fst]. f_equal.
      change (fold_left add ?l zero) with (Py.sum zero add l).
      rewrite !sum_weighted_sum by assumption.
      rewrite !registered_rewards, map_map.
      clear Hne. induction pairs as [|p rest IH];
        cbn [map RewardFactory.weighted_sum entry
             RewardFactory.weight RewardFactory.reward fst snd].
      * now rewrite Hk0.
      * rewrite IH, Hdistr, Hmassoc. reflexivity.
    + rewrite registered_rewards. destruct pairs; [congruence|discriminate].
Qed.

End RewardFactory_more.

(* ================================================================== *)
(** * The observations obs.py ships *)

Section Comprehension_facts.
Variables S A B : Type.

(** A comprehension whose element never raises nor writes is a [map]. *)
Lemma comprehension_map (f : A -> Py.M S B) (g : A -> B) (s : S) (xs : list A) :
  (forall x, f x s = (Py.Ok (g x), s)) ->
  range.comprehension f xs s = (Py.Ok (map g xs), s).
Proof.
  intros Hf. induction xs as [|x xs IH]; [reflexivity|].
  cbn [range.comprehension map]. unfold Py.bind at 1. rewrite Hf.
  unfold Py.bind at 1. rewrite IH. reflexivity.
Qed.

(** A comprehension that returns has one element per item. *)
Lemma comprehension_length (f : A -> Py.M S B) (xs : list A) :
  forall (s s' : S) (ys : list B),
    range.comprehension f xs s = (Py.Ok ys, s') ->
    Py.len ys = Py.len xs.
Proof.
  induction xs as [|x xs IH]; intros s s' ys H.
  - injection H as <- _. reflexivity.
  - cbn [range.comprehension] in H. unfold Py.bind at 1 in H.
    destruct (f x s) as [[y|e] s1]; [|discriminate H].
    unfold Py.bind at 1 in H.
    destruct (range.comprehension f xs s1) as [[ys'|e] s2] eqn:E;
      [|discriminate H].
    injection H as <- _. unfold Py.len in *. cbn [List.length].
    now rewrite (IH _ _ _ E).
Qed.
End Comprehension_facts.

Section TorsoIMU_facts.
Variable num : Type.
Variable pi neg_pi c180 neg_c180 inf neg_inf : num.
Variable degrees1 : num -> num.

Let IMU : Type := TorsoIMU.t.

Lemma TorsoIMU_client_set (self : IMU) (c : bullet_client.BulletClient) :
  TorsoIMU._client self = Some c ->
  ObservationBase.client TorsoIMU._client self = (Py.Ok c, self).
Proof.
  intros H. unfold ObservationBase.client, Py.bind. cbn [Py.get].
  rewrite H. reflexivity.
Qed.

Lemma TorsoIMU_compute_run (w : pybullet.World num) (self : IMU)
    (c : bullet_client.BulletClient) :
  TorsoIMU._client self = Some c ->
  TorsoIMU.compute degrees1 w self
  = (Py.Ok
       (let orien := np.array3 (pybullet.getEulerFromQuaternion (w c)
                       (snd (pybullet.getBasePositionAndOrientation (w c)
                               (TorsoIMU.robot self)))) in
        let v_lin := np.array3 (fst (pybullet.getBaseVelocity (w c)
                                       (TorsoIMU.robot self))) in
        let v_ang := np.array3 (snd (pybullet.getBaseVelocity (w c)
                                       (TorsoIMU.robot self))) in
        if TorsoIMU._degrees self
        then map degrees1 orien ++ v_lin ++ map degrees1 v_ang
        else orien ++ v_lin ++ v_ang),
     self).
Proof.
  intros H. unfold TorsoIMU.compute.
  unfold Py.bind at 1. cbn [Py.get].
  unfold Py.bind at 1. rewrite (TorsoIMU_client_set self H).
  destruct (pybullet.getBasePositionAndOrientation (w c) (TorsoIMU.robot self))
    as [pos quat]. cbn [snd].
  unfold Py.bind at 1. rewrite (TorsoIMU_client_set self H).
  unfold Py.bind at 1. rewrite (TorsoIMU_client_set self H).
  destruct (pybullet.getBaseVelocity (w c) (TorsoIMU.robot self)) as [vl va].
  cbn [fst snd Py.ret List.concat np.degrees].
  rewrite app_nil_r.
  destruct (TorsoIMU._degrees self); reflexivity.
Qed.

Lemma array3_length (t : num * num * num) : Py.len (np.array3 t) = 3.
Proof. destruct t as [[x y] z]. reflexivity. Qed.

(** X8: a [TorsoIMU] whose client has been set (what
    [register_observation] does first) computes, in every state of the
    simulation and with either unit of angle, a vector of nine values:
    as many as it has labels, lower bounds and upper bounds.  The three
    counts [register_observation] compares are all nine. *)
Theorem TorsoIMU_shape (w : pybullet.World num) (self : IMU)
    (c : bullet_client.BulletClient) :
  let self' := snd (TorsoIMU.set_client c self) in
  exists (value : list num) (space : spaces.Box num),
    TorsoIMU.compute degrees1 w self' = (Py.Ok value, self') /\
    TorsoIMU.observation_space pi neg_pi c180 neg_c180 inf neg_inf self'
    = (Py.Ok space, self') /\
    Py.len TorsoIMU.labels = 9 /\
    Py.len (spaces.low space) = 9 /\
    Py.len (spaces.high space) = 9 /\
    Py.len value = 9.
Proof.
  cbv zeta.
  set (self' := snd (TorsoIMU.set_client c self)).
  assert (Hc : TorsoIMU._client self' = Some c) by reflexivity.
  eexists. eexists.
  split; [apply (TorsoIMU_compute_run w self' Hc)|].
  split; [reflexivity|].
  split; [reflexivity|]. split; [reflexivity|]. split; [reflexivity|].
  cbv zeta. unfold Py.len.
  destruct (TorsoIMU._degrees self');
    rewrite !length_app, ?length_map;
    repeat match goal with
           | |- context [List.length (np.array3 ?t)] =>
               change (List.length (np.array3 t)) with (Py.len (np.array3 t));
               rewrite (array3_length t)
           end; reflexivity.
Qed.

(** X9: the angles a [TorsoIMU] reports in degrees are the conversion
    of those it reports in radians, entry by entry, for the orientation
    and the angular velocity; the linear velocity in the middle is the
    same in both. *)
Theorem TorsoIMU_degrees (w : pybullet.World num) (body_id : Z)
    (c : bullet_client.BulletClient) :
  let radians := snd (TorsoIMU.set_client c (TorsoIMU.__init__ body_id false)) in
  let degrees := snd (TorsoIMU.set_client c (TorsoIMU.__init__ body_id true)) in
  exists orien v_lin v_ang : list num,
    Py.len orien = 3 /\ Py.len v_lin = 3 /\ Py.len v_ang = 3 /\
    TorsoIMU.compute degrees1 w radians
    = (Py.Ok (orien ++ v_lin ++ v_ang), radians) /\
    TorsoIMU.compute degrees1 w degrees
    = (Py.Ok (map degrees1 orien ++ v_lin ++ map degrees1 v_ang), degrees).
Proof.
  cbv zeta.
  eexists. eexists. eexists.
  split; [|split; [|split; [|split]]].
  4: { rewrite TorsoIMU_compute_run with (c := c) by reflexivity.
       cbv zeta. cbn [TorsoIMU._degrees TorsoIMU.set_client TorsoIMU.__init__
                      Py.modify snd TorsoIMU.robot].
       reflexivity. }
  4: { rewrite TorsoIMU_compute_run with (c := c) by reflexivity.
       cbv zeta. cbn [TorsoIMU._degrees TorsoIMU.set_client TorsoIMU.__init__
                      Py.modify snd TorsoIMU.robot].
       reflexivity. }
  all: apply array3_length.
Qed.

End TorsoIMU_facts.

Section MotorEncoder_facts.
Import EncoderSpec.
Variable num : Type.
Variable degrees1 : num -> num.
Variable decode : string -> Py.result string.

Let Encoder : Type := MotorEncoder.t.

Lemma MotorEncoder_client_set (self : Encoder) (c : bullet_client.BulletClient) :
  MotorEncoder._client self = Some c ->
  ObservationBase.client MotorEncoder._client self = (Py.Ok c, self).
Proof.
  intros H. unfold ObservationBase.client, Py.bind. cbn [Py.get].
  rewrite H. reflexivity.
Qed.

Lemma MotorEncoder_client_unset (self : Encoder) :
  MotorEncoder._client self = None ->
  ObservationBase.client MotorEncoder._client self
  = (Py.Raise (Py.ValueError "PyBullet client needs to be set"), self).
Proof.
  intros H. unfold ObservationBase.client, Py.bind. cbn [Py.get].
  rewrite H. reflexivity.
Qed.

Lemma num_joints_run (w : pybullet.World num) (self : Encoder)
    (c : bullet_client.BulletClient) :
  MotorEncoder._client self = Some c ->
  MotorEncoder._num_joints w self
  = (Py.Ok (pybullet.getNumJoints (w c) (MotorEncoder.robot self)), self).
Proof.
  intros H. unfold MotorEncoder._num_joints, Py.bind. cbn [Py.get].
  rewrite (MotorEncoder_client_set self H). reflexivity.
Qed.

Lemma observation_space_loop_run (w : pybullet.World num) (self : Encoder)
    (c : bullet_client.BulletClient) (joints : list nat) :
  MotorEncoder._client self = Some c ->
  forall lower upper : list num,
    MotorEncoder.observation_space_loop w joints lower upper self
    = (Py.Ok
         (lower ++ map (fun j => pybullet.jointLowerLimit
                          (pybullet.getJointInfo (w c) (MotorEncoder.robot self) j))
                       joints,
          upper ++ map (fun j => pybullet.jointUpperLimit
                          (pybullet.getJointInfo (w c) (MotorEncoder.robot self) j))
                       joints),
       self).
Proof.
  intros H. induction joints as [|j joints IH]; intros lower upper.
  - cbn. now rewrite !app_nil_r.
  - cbn [MotorEncoder.observation_space_loop map].
    unfold Py.bind at 1. cbn [Py.get].
    unfold Py.bind at 1. rewrite (MotorEncoder_client_set self H).
    rewrite IH, <- !app_assoc. reflexivity.
Qed.

Lemma reported_length (self : Encoder) (values : list num) :
  Py.len (EncoderSpec.reported degrees1 self values) = Py.len values.
Proof.
  unfold EncoderSpec.reported, Py.len. destruct (MotorEncoder._degrees self);
    [apply length_map|reflexivity].
Qed.

Lemma MotorEncoder_observation_space_run (w : pybullet.World num)
    (self : Encoder) (c : bullet_client.BulletClient) :
  MotorEncoder._client self = Some c ->
  let joints := range.range (pybullet.getNumJoints (w c) (MotorEncoder.robot self)) in
  let lower := EncoderSpec.reported degrees1 self
    (map (fun j => pybullet.jointLowerLimit
            (pybullet.getJointInfo (w c) (MotorEncoder.robot self) j)) joints) in
  let upper := EncoderSpec.reported degrees1 self
    (map (fun j => pybullet.jointUpperLimit
            (pybullet.getJointInfo (w c) (MotorEncoder.robot self) j)) joints) in
  MotorEncoder.observation_space degrees1 w self
  = (Py.Ok (spaces.mkBox (combine lower upper)), self).
Proof.
  intros H. cbv zeta. unfold MotorEncoder.observation_space.
  unfold Py.bind at 1. rewrite (num_joints_run w self H).
  unfold Py.bind at 1. rewrite (@observation_space_loop_run w self c _ H).
  unfold Py.bind at 1. cbn [Py.get fst snd app].
  unfold spaces.Box_new, EncoderSpec.reported, np.degrees, Py.len.
  destruct (MotorEncoder._degrees self); rewrite !app_nil_l;
    rewrite !length_map, Nat.eqb_refl; reflexivity.
Qed.

Lemma MotorEncoder_compute_run (w : pybullet.World num)
    (self : Encoder) (c : bullet_client.BulletClient) :
  MotorEncoder._client self = Some c ->
  MotorEncoder.compute degrees1 w self
  = (Py.Ok (EncoderSpec.reported degrees1 self
              (map (pybullet.getJointState (w c) (MotorEncoder.robot self))
                   (range.range (pybullet.getNumJoints (w c)
                                   (MotorEncoder.robot self))))),
     self).
Proof.
  intros H. unfold MotorEncoder.compute.
  unfold Py.bind at 1. rewrite (num_joints_run w self H).
  unfold Py.bind at 1.
  rewrite comprehension_map
    with (g := pybullet.getJointState (w c) (MotorEncoder.robot self)).
  - reflexivity.
  - intros i. unfold Py.bind at 1. cbn [Py.get].
    unfold Py.bind at 1. rewrite (MotorEncoder_client_set self H). reflexivity.
Qed.

Lemma MotorEncoder_labels_length (w : pybullet.World num)
    (self self' : Encoder) (c : bullet_client.BulletClient) (names : list string) :
  MotorEncoder._client self = Some c ->
  MotorEncoder.labels decode w self = (Py.Ok names, self') ->
  Py.len names = pybullet.getNumJoints (w c) (MotorEncoder.robot self).
Proof.
  intros H. unfold MotorEncoder.labels.
  unfold Py.bind at 1. rewrite (num_joints_run w self H).
  intros E. apply comprehension_length in E. rewrite E.
  unfold Py.len, range.range. apply length_seq.
Qed.

Lemma MotorEncoder_labels_run (w : pybullet.World num)
    (self : Encoder) (c : bullet_client.BulletClient) (text : string -> string) :
  MotorEncoder._client self = Some c ->
  (forall j, decode (pybullet.jointName
                       (pybullet.getJointInfo (w c) (MotorEncoder.robot self) j))
             = Py.Ok (text (pybullet.jointName
                       (pybullet.getJointInfo (w c) (MotorEncoder.robot self) j)))) ->
  MotorEncoder.labels decode w self
  = (Py.Ok (map (fun j => text (pybullet.jointName
                   (pybullet.getJointInfo (w c) (MotorEncoder.robot self) j)))
                (range.range (pybullet.getNumJoints (w c)
                                (MotorEncoder.robot self)))),
     self).
Proof.
  intros H Hd. unfold MotorEncoder.labels.
  unfold Py.bind at 1. rewrite (num_joints_run w self H).
  apply comprehension_map. intros j.
  unfold Py.bind at 1. cbn [Py.get].
  unfold Py.bind at 1. rewrite (MotorEncoder_client_set self H).
  rewrite Hd. reflexivity.
Qed.

(** X10: a [MotorEncoder] whose client has been set reports one lower
    bound, one upper bound and one position per joint of its robot, in
    the order of the joint indices, and every list of labels it returns
    has one label per joint: whenever the names of the joints decode,
    the three counts [register_observation] compares are all the number
    of joints, whatever that number is (zero included) and with either
    unit of angle. *)
Theorem MotorEncoder_shape (w : pybullet.World num) (self : Encoder)
    (c : bullet_client.BulletClient) :
  let self' := snd (MotorEncoder.set_client c self) in
  let n := pybullet.getNumJoints (w c) (MotorEncoder.robot self) in
  exists (space : spaces.Box num) (value : list num),
    MotorEncoder.observation_space degrees1 w self' = (Py.Ok space, self') /\
    MotorEncoder.compute degrees1 w self' = (Py.Ok value, self') /\
    value = EncoderSpec.reported degrees1 self
              (map (pybullet.getJointState (w c) (MotorEncoder.robot self))
                   (range.range n)) /\
    Py.len (spaces.low space) = n /\
    Py.len (spaces.high space) = n /\
    Py.len value = n /\
    (forall (names : list string) (s : Encoder),
       MotorEncoder.labels decode w self' = (Py.Ok names, s) ->
       Py.len names = n).
Proof.
  cbv zeta.
  set (self' := snd (MotorEncoder.set_client c self)).
  assert (Hc : MotorEncoder._client self' = Some c) by reflexivity.
  assert (Hn : Py.len (range.range
                 (pybullet.getNumJoints (w c) (MotorEncoder.robot self)))
               = pybullet.getNumJoints (w c) (MotorEncoder.robot self))
    by apply length_seq.
  eexists. eexists.
  split; [apply (MotorEncoder_observation_space_run w self' Hc)|].
  split; [apply (MotorEncoder_compute_run w self' Hc)|].
  split; [reflexivity|].
  split; [|split; [|split]].
  - unfold spaces.low, Py.len in *. cbn [spaces.bounds].
    rewrite length_map, length_combine.
    change (List.length ?l) with (Py.len l).
    rewrite !reported_length. unfold Py.len. rewrite !length_map.
    cbn [MotorEncoder.robot self' MotorEncoder.set_client Py.modify snd].
    unfold Py.len in Hn. rewrite Hn. apply Nat.min_id.
  - unfold spaces.high, Py.len in *. cbn [spaces.bounds].
    rewrite length_map, length_combine.
    change (List.length ?l) with (Py.len l).
    rewrite !reported_length. unfold Py.len. rewrite !length_map.
    cbn [MotorEncoder.robot self' MotorEncoder.set_client Py.modify snd].
    unfold Py.len in Hn. rewrite Hn. apply Nat.min_id.
  - rewrite reported_length. unfold Py.len in *. rewrite length_map.
    cbn [MotorEncoder.robot self' MotorEncoder.set_client Py.modify snd].
    exact Hn.
  - intros names s E.
    apply (MotorEncoder_labels_length w self' Hc E).
Qed.

(** X11: what a shipped observation can do before a client is set.  A
    new [TorsoIMU] gives its labels and its space, but its [compute]
    raises the ValueError of the [client] property; every member of a
    new [MotorEncoder] raises it, since each starts by counting the
    joints.  The object is left as it was. *)
Theorem shipped_observations_need_client (w : pybullet.World num)
    (body_id : Z) (degrees : bool) (pi neg_pi c180 neg_c180 inf neg_inf : num) :
  let imu := TorsoIMU.__init__ body_id degrees in
  let encoder := MotorEncoder.__init__ body_id degrees in
  let unset := Py.ValueError "PyBullet client needs to be set" in
  TorsoIMU.compute degrees1 w imu = (Py.Raise unset, imu) /\
  (exists space,
     TorsoIMU.observation_space pi neg_pi c180 neg_c180 inf neg_inf imu
     = (Py.Ok space, imu)) /\
  MotorEncoder.compute degrees1 w encoder = (Py.Raise unset, encoder) /\
  MotorEncoder.labels decode w encoder = (Py.Raise unset, encoder) /\
  MotorEncoder.observation_space degrees1 w encoder = (Py.Raise unset, encoder).
Proof.
  cbv zeta. repeat split.
  eexists. reflexivity.
Qed.

End MotorEncoder_facts.

(* ================================================================== *)
(** * The further properties on the sample objects *)

Lemma get_observation_space_caches_witness :
  ObservationFactory._obs_space Samples.factory_pose_cached
  = Some (spaces.mkBox [(-1, 1); (-1, 1)]%float) /\
  forall w' : Samples.World,
    ObservationFactory.get_observation_space false w' Samples.factory_pose_cached
    = (Py.Ok (spaces.mkBox [(-1, 1); (-1, 1)]%float), Samples.factory_pose_cached).
Proof.
  assert (H : ObservationFactory.get_observation_space false tt Samples.factory_pose
              = (Py.Ok (spaces.mkBox [(-1, 1); (-1, 1)]%float),
                 Samples.factory_pose_cached)) by reflexivity.
  destruct (@get_observation_space_caches Samples.World float false tt _ _ _ H)
    as (Hc & _ & _ & Hlater).
  split; [exact Hc|exact Hlater].
Defined.

Lemma regenerated_space_matches_get_obs_witness :
  exists (b : spaces.Box float) (vector : list float) (labels : list string),
    fst (ObservationFactory.get_observation_space true tt
           Samples.factory_pose_cached_height) = Py.Ok b /\
    ObservationFactory.get_obs tt Samples.factory_pose_cached_height
    = (Py.Ok (vector, labels), Samples.factory_pose_cached_height) /\
    Py.len (spaces.low b) = Py.len vector /\
    Py.len (spaces.high b) = Py.len vector /\
    Py.len (spaces.low b) = Py.len labels.
Proof.
  apply (@regenerated_space_matches_get_obs Samples.World float tt
           Samples.factory_pose_cached_height samples_reachable).
  vm_compute. discriminate.
Defined.

Lemma get_obs_after_registration_witness :
  ObservationFactory.get_obs tt Samples.factory_pose_cached_height
  = (Py.Ok (([0.5; -0.5] ++ [0.25])%float, ["x"; "y"] ++ ["z"]),
     Samples.factory_pose_cached_height).
Proof.
  assert (H : ObservationFactory.register_observation tt
                (Samples.factory_pose_cached, Samples.height)
              = (Py.Ok tt, (Samples.factory_pose_cached_height,
                            bound_to 7 Samples.height)))
    by reflexivity.
  exact (@get_obs_after_registration Samples.World float tt _ _ _ _ H tt).
Defined.

Lemma get_reward_order_irrelevant_witness :
  fst (RewardFactory.get_reward 0%Z Z.add Z.mul tt
         (registered [(1%Z, Samples.constant_reward 3%Z);
                      ((-2)%Z, Samples.constant_reward 1%Z)]))
  = fst (RewardFactory.get_reward 0%Z Z.add Z.mul tt
           (registered [((-2)%Z, Samples.constant_reward 1%Z);
                        (1%Z, Samples.constant_reward 3%Z)])).
Proof.
  apply (@get_reward_order_irrelevant Samples.World Z 0%Z Z.add Z.mul tt).
  - intros x y z. apply Z.add_assoc.
  - intros x y. apply Z.add_comm.
  - apply perm_swap.
Defined.

Lemma get_reward_scales_witness :
  exists t : Z,
    fst (RewardFactory.get_reward 0%Z Z.add Z.mul tt
           (registered [(1%Z, Samples.constant_reward 3%Z);
                        ((-2)%Z, Samples.constant_reward 1%Z)])) = Py.Ok t /\
    fst (RewardFactory.get_reward 0%Z Z.add Z.mul tt
           (registered [((5 * 1)%Z, Samples.constant_reward 3%Z);
                        ((5 * -2)%Z, Samples.constant_reward 1%Z)]))
    = Py.Ok (5 * t)%Z.
Proof.
  apply (@get_reward_scales Samples.World Z 0%Z Z.add Z.mul tt 5%Z
           [(1%Z, Samples.constant_reward 3%Z);
            ((-2)%Z, Samples.constant_reward 1%Z)]).
  - intros x y z. apply Z.add_assoc.
  - intros x. apply Z.add_comm.
  - intros x y z. apply Z.mul_assoc.
  - intros x y z. apply Z.mul_add_distr_l.
  - reflexivity.
  - discriminate.
Defined.

Example sample_encoder :
  MotorEncoder.labels RobotSamples.decode RobotSamples.world RobotSamples.encoder
  = (Py.Ok ["hip"; "knee"], RobotSamples.encoder) /\
  MotorEncoder.compute (fun x => x) RobotSamples.world RobotSamples.encoder
  = (Py.Ok [0.5; -0.5]%float, RobotSamples.encoder) /\
  MotorEncoder.observation_space (fun x => x) RobotSamples.world RobotSamples.encoder
  = (Py.Ok (spaces.mkBox [(-1, 1); (-1, 1)]%float), RobotSamples.encoder).
Proof. repeat split; reflexivity. Qed.

Example sample_imu :
  TorsoIMU.compute (fun x => x) RobotSamples.world RobotSamples.imu
  = (Py.Ok [0; 0; 0; 0.5; 0; 0; 0; 0; 0.25]%float, RobotSamples.imu).
Proof. reflexivity. Qed.
